(** * rosetta-cli: the data tester (internal/tester/data.go)

    A shallow embedding of the orchestration code of the data tester:
    [HandleErr], [FindMissingOps], [recursiveOpSearch] and the bootstrap
    step of [InitializeData].  External collaborators (storage, syncer,
    reconciler, fetcher) are represented by the values their calls return,
    gathered in "world" records; everything the tester itself decides is
    written out as in the Go source. *)

From Stdlib Require Import ZArith List String Ascii Bool Lia DecimalString.
Import ListNotations.
Local Open Scope Z_scope.

(** ** Machine integers *)

(** Go's [int64]: a [Z] kept in the two's complement range, with the
    wrap-around of [-] written out. *)
Module Int64.

Definition modulus : Z := 2 ^ 64.
Definition min : Z := - 2 ^ 63.
Definition max : Z := 2 ^ 63 - 1.

Definition in_range (z : Z) : Prop := min <= z <= max.

Definition wrap (z : Z) : Z := (z + 2 ^ 63) mod modulus - 2 ^ 63.

Definition sub (a b : Z) : Z := wrap (a - b).

End Int64.

(** The inverse of 125 modulo [2 ^ 63]: the lookback window below is twice
    125. *)
Definition inverse125 : Z := 2066035336255469781.

(** A number of windows after which an index that is lowered window by
    window, wrapping around if it must, lands on one of the two lowest
    [int64] values. *)
Definition landing (e : Z) : Z :=
  ((e - e mod 2 + 9223372036854775808) / 2 * inverse125) mod 9223372036854775808
  + 9223372036854775808.

(** ** Errors *)

(** Go [error] values.  The two sentinels are compared by identity in the
    source ([err == context.Canceled], [err == storage.ErrHeadBlockNotFound]);
    every other error is built by [errors.New], by [fmt.Errorf] without a
    verb for the error, or by [fmt.Errorf("%w: ...")]. *)
Inductive error : Type :=
| context_Canceled
| storage_ErrHeadBlockNotFound
| errors_New (msg : string)
| fmt_Errorf_w (inner : error) (suffix : string).

(** [err.Error()]. *)
Fixpoint Error (e : error) : string :=
  match e with
  | context_Canceled => "context canceled"
  | storage_ErrHeadBlockNotFound => "head block not found"
  | errors_New msg => msg
  | fmt_Errorf_w inner suffix => Error inner ++ ": " ++ suffix
  end%string.

(** [err == nil]. *)
Definition isNil (err : option error) : bool :=
  match err with None => true | Some _ => false end.

(** [err == context.Canceled]. *)
Definition isCanceled (err : option error) : bool :=
  match err with Some context_Canceled => true | _ => false end.

(** [err == storage.ErrHeadBlockNotFound]. *)
Definition isHeadBlockNotFound (err : option error) : bool :=
  match err with Some storage_ErrHeadBlockNotFound => true | _ => false end.

(** The [%d] verb of [fmt] on an integer. *)
Definition fmt_d (z : Z) : string := NilZero.string_of_int (Z.to_int z).

(** ** Data model *)

Record BlockIdentifier : Type := {
  Index : Z;                      (* int64 *)
  Hash : string
}.

Record AccountIdentifier : Type := {
  Address : string
}.

Record Currency : Type := {
  Symbol : string;
  Decimals : Z
}.

Record AccountCurrency : Type := {
  Account : AccountIdentifier;
  CurrencyOf : Currency
}.

Record NetworkIdentifier : Type := {
  Blockchain : string;
  Network : string
}.

(** Pointers to collaborators whose state the tester never inspects. *)
Definition Fetcher : Type := nat.
Definition BadgerStorage : Type := string.   (* identified by its directory *)

(** [configuration.Configuration], the [Data] part read by the tester. *)
Record DataConfiguration : Type := {
  DataDirectory : string;
  ExemptAccounts : string;
  InterestingAccounts : string;
  LogBlocks : bool;
  LogTransactions : bool;
  LogBalanceChanges : bool;
  LogReconciliations : bool;
  IgnoreReconciliationError : bool;
  ActiveReconciliationConcurrency : Z;
  InactiveReconciliationConcurrency : Z;
  InactiveReconciliationFrequency : Z;
  HistoricalBalanceDisabled : bool;
  BootstrapBalances : string
}.

Record Configuration : Type := {
  Data : DataConfiguration
}.

(** The constants of the file. *)
Definition InactiveFailureLookbackWindow : Z := 250.

Inductive CounterName : Type :=
| ActiveReconciliationCounter
| InactiveReconciliationCounter.

(** [storage.CounterStorage], seen through [Get]: either the [*big.Int]
    read or the error of the read. *)
Record CounterStorage : Type := {
  cs_db : BadgerStorage;
  Get : CounterName -> Z + error
}.

Record BlockStorage : Type := { bs_db : BadgerStorage }.
Record BalanceStorage : Type := { bal_db : BadgerStorage }.

Record Logger : Type := {
  lg_counterStorage : BadgerStorage;
  lg_logDir : string;
  lg_logBlocks : bool;
  lg_logTransactions : bool;
  lg_logBalanceChanges : bool;
  lg_logReconciliation : bool
}.

(** [processor.ReconcilerHandler]: the flag given to its constructor and
    the failures the reconciler records in it while running. *)
Record ReconcilerHandler : Type := {
  rh_logger : Logger;
  haltOnReconciliationError : bool;
  InactiveFailure : option AccountCurrency;
  InactiveFailureBlock : option BlockIdentifier;
  ActiveFailureBlock : option BlockIdentifier
}.

(** Modelled from the spec: [processor.NewReconcilerHandler] is not in
    [data.go]; its second argument is the halt-on-error flag of the handler
    (the call site names it so), and a new handler has recorded no failure. *)
Definition NewReconcilerHandler (logger : Logger) (halt : bool) : ReconcilerHandler :=
  {| rh_logger := logger;
     haltOnReconciliationError := halt;
     InactiveFailure := None;
     InactiveFailureBlock := None;
     ActiveFailureBlock := None |}.

Record ReconcilerHelper : Type := {
  rhp_blockStorage : BlockStorage;
  rhp_balanceStorage : BalanceStorage
}.

(** [reconciler.Reconciler]: the arguments of [reconciler.New] and the
    settings its options write. *)
Record Reconciler : Type := {
  r_network : NetworkIdentifier;
  r_helper : ReconcilerHelper;
  r_handler : ReconcilerHandler;
  r_fetcher : Fetcher;
  activeConcurrency : Z;
  inactiveConcurrency : Z;
  lookupBalanceByBlock : bool;
  interestingAccounts : list AccountCurrency;
  seenAccounts : list AccountCurrency;
  debugLogging : bool;
  inactiveFrequency : Z
}.

(** The settings a reconciler starts from before its options are applied;
    they belong to the SDK and are left open. *)
Record ReconcilerDefaults : Type := {
  defaultActiveConcurrency : Z;
  defaultInactiveConcurrency : Z;
  defaultLookupBalanceByBlock : bool;
  defaultInactiveFrequency : Z
}.

(** Modelled from the spec: the options of the SDK's reconciler are its
    configuration knobs (active and inactive concurrency, interesting
    accounts, lookup of balances by block, sweep frequency); each one
    writes the setting it is named after and leaves the others alone. *)
Definition ReconcilerOption : Type := Reconciler -> Reconciler.

Definition WithActiveConcurrency (n : Z) : ReconcilerOption := fun r =>
  {| r_network := r_network r; r_helper := r_helper r; r_handler := r_handler r;
     r_fetcher := r_fetcher r;
     activeConcurrency := n;
     inactiveConcurrency := inactiveConcurrency r;
     lookupBalanceByBlock := lookupBalanceByBlock r;
     interestingAccounts := interestingAccounts r;
     seenAccounts := seenAccounts r;
     debugLogging := debugLogging r;
     inactiveFrequency := inactiveFrequency r |}.

Definition WithInactiveConcurrency (n : Z) : ReconcilerOption := fun r =>
  {| r_network := r_network r; r_helper := r_helper r; r_handler := r_handler r;
     r_fetcher := r_fetcher r;
     activeConcurrency := activeConcurrency r;
     inactiveConcurrency := n;
     lookupBalanceByBlock := lookupBalanceByBlock r;
     interestingAccounts := interestingAccounts r;
     seenAccounts := seenAccounts r;
     debugLogging := debugLogging r;
     inactiveFrequency := inactiveFrequency r |}.

Definition WithLookupBalanceByBlock (b : bool) : ReconcilerOption := fun r =>
  {| r_network := r_network r; r_helper := r_helper r; r_handler := r_handler r;
     r_fetcher := r_fetcher r;
     activeConcurrency := activeConcurrency r;
     inactiveConcurrency := inactiveConcurrency r;
     lookupBalanceByBlock := b;
     interestingAccounts := interestingAccounts r;
     seenAccounts := seenAccounts r;
     debugLogging := debugLogging r;
     inactiveFrequency := inactiveFrequency r |}.

Definition WithInterestingAccounts (l : list AccountCurrency) : ReconcilerOption := fun r =>
  {| r_network := r_network r; r_helper := r_helper r; r_handler := r_handler r;
     r_fetcher := r_fetcher r;
     activeConcurrency := activeConcurrency r;
     inactiveConcurrency := inactiveConcurrency r;
     lookupBalanceByBlock := lookupBalanceByBlock r;
     interestingAccounts := l;
     seenAccounts := seenAccounts r;
     debugLogging := debugLogging r;
     inactiveFrequency := inactiveFrequency r |}.

Definition WithSeenAccounts (l : list AccountCurrency) : ReconcilerOption := fun r =>
  {| r_network := r_network r; r_helper := r_helper r; r_handler := r_handler r;
     r_fetcher := r_fetcher r;
     activeConcurrency := activeConcurrency r;
     inactiveConcurrency := inactiveConcurrency r;
     lookupBalanceByBlock := lookupBalanceByBlock r;
     interestingAccounts := interestingAccounts r;
     seenAccounts := l;
     debugLogging := debugLogging r;
     inactiveFrequency := inactiveFrequency r |}.

Definition WithDebugLogging (b : bool) : ReconcilerOption := fun r =>
  {| r_network := r_network r; r_helper := r_helper r; r_handler := r_handler r;
     r_fetcher := r_fetcher r;
     activeConcurrency := activeConcurrency r;
     inactiveConcurrency := inactiveConcurrency r;
     lookupBalanceByBlock := lookupBalanceByBlock r;
     interestingAccounts := interestingAccounts r;
     seenAccounts := seenAccounts r;
     debugLogging := b;
     inactiveFrequency := inactiveFrequency r |}.

Definition WithInactiveFrequency (n : Z) : ReconcilerOption := fun r =>
  {| r_network := r_network r; r_helper := r_helper r; r_handler := r_handler r;
     r_fetcher := r_fetcher r;
     activeConcurrency := activeConcurrency r;
     inactiveConcurrency := inactiveConcurrency r;
     lookupBalanceByBlock := lookupBalanceByBlock r;
     interestingAccounts := interestingAccounts r;
     seenAccounts := seenAccounts r;
     debugLogging := debugLogging r;
     inactiveFrequency := n |}.

(** Modelled from the spec: [reconciler.New] of the SDK starts from its
    defaults and applies every option in the order given. *)
Definition reconciler_New (d : ReconcilerDefaults)
    (network : NetworkIdentifier) (helper : ReconcilerHelper)
    (handler : ReconcilerHandler) (fetcher : Fetcher)
    (options : list ReconcilerOption) : Reconciler :=
  fold_left (fun r o => o r) options
    {| r_network := network; r_helper := helper; r_handler := handler;
       r_fetcher := fetcher;
       activeConcurrency := defaultActiveConcurrency d;
       inactiveConcurrency := defaultInactiveConcurrency d;
       lookupBalanceByBlock := defaultLookupBalanceByBlock d;
       interestingAccounts := [];
       seenAccounts := [];
       debugLogging := false;
       inactiveFrequency := defaultInactiveFrequency d |}.

Record BalanceStorageHelper : Type := {
  bsh_network : NetworkIdentifier;
  bsh_fetcher : Fetcher;
  bsh_lookupBalanceByBlock : bool;
  bsh_exemptAccounts : list AccountCurrency
}.

Record BalanceStorageHandler : Type := {
  bshd_logger : Logger;
  bshd_reconciler : Reconciler;
  bshd_reconcile : bool;
  bshd_interestingAccount : option AccountCurrency
}.

(** [statefulsyncer.StatefulSyncer], as the arguments of its constructor. *)
Record StatefulSyncer : Type := {
  sy_network : NetworkIdentifier;
  sy_fetcher : Fetcher;
  sy_blockStorage : BlockStorage;
  sy_logger : Logger;
  sy_workers : list BalanceStorage
}.

(** [DataTester].  The [signalReceived] field is a [*bool] shared with the
    signal handler of the command: the functions below take the value read
    through it as an argument (or from the world of an attempt), since it
    changes behind the tester's back. *)
Record DataTester : Type := {
  network : NetworkIdentifier;
  config : Configuration;
  syncer : StatefulSyncer;
  reconciler : Reconciler;
  logger : Logger;
  counterStorage : CounterStorage;
  reconcilerHandler : ReconcilerHandler;
  reconcile : bool;
  fetcher : Fetcher;
  genesisBlock : BlockIdentifier
}.

(** ** Terminal output and process exit *)

Inductive Color : Type := Red | Green | Yellow.

Definition Line : Type := (Color * string)%type.

(** How a function that may call [os.Exit] ends. *)
Inductive Outcome : Type :=
| Exit (code : Z)
| Returned.

(** ** HandleErr *)

Definition msgHalted : string := "Check halted".
Definition msgSucceeded : string := "Check succeeded".
Definition msgNoReconciliations : string :=
  "Check succeeded, however, no reconciliations were performed!".
Definition msgCantFind : string :=
  "Can't find the block missing operations automatically, please enable --lookup-balance-by-block".

(** The condition of the inner [if]: the [||] of Go evaluates left to
    right and stops at the first true operand, so the sum is only formed
    when both reads succeeded. *)
Definition reconciliationsSeen (active inactive : Z + error) : bool :=
  match active, inactive with
  | inr _, _ => true                             (* activeErr != nil *)
  | inl _, inr _ => true                         (* inactiveErr != nil *)
  | inl a, inl i => negb (Z.sgn (a + i) =? 0)    (* Add(...).Sign() != 0 *)
  end.

Definition HandleErr (t : DataTester) (signalReceived : bool)
    (err : option error) : list Line * Outcome :=
  if signalReceived then
    ([(Red, msgHalted)], Exit 1)
  else if isNil err || isCanceled err then
    let activeReconciliations := Get (counterStorage t) ActiveReconciliationCounter in
    let inactiveReconciliations := Get (counterStorage t) InactiveReconciliationCounter in
    if reconciliationsSeen activeReconciliations inactiveReconciliations
    then ([(Green, msgSucceeded)], Exit 0)
    else ([(Yellow, msgNoReconciliations)], Exit 0)
  else
    let failed :=
      (Red, ("Check failed: " ++
             match err with Some e => Error e | None => "" end)%string) in
    match InactiveFailure (reconcilerHandler t) with
    | None => ([failed], Exit 1)
    | Some _ =>
      if HistoricalBalanceDisabled (Data (config t))
      then ([failed; (Red, msgCantFind)], Exit 1)
      else ([failed], Returned)
    end.

(** ** The recursive localizer *)

(** Everything one call of [recursiveOpSearch] builds around its ephemeral
    storage. *)
Record Pipeline : Type := {
  p_tmpDir : string;
  p_logger : Logger;
  p_balanceStorageHelper : BalanceStorageHelper;
  p_reconcilerHandler : ReconcilerHandler;
  p_reconciler : Reconciler;
  p_balanceStorageHandler : BalanceStorageHandler;
  p_syncer : StatefulSyncer
}.

(** What the outside world answers during one call: the results of the
    calls into [utils], [storage] and the error group, the block the
    reconciler left in the handler of the call, and the value of
    [*t.signalReceived] when the call reads it. *)
Record Attempt : Type := {
  createTempDir : string + error;               (* utils.CreateTempDir() *)
  newBadgerStorage : option error;              (* storage.NewBadgerStorage *)
  wait : option error;                          (* g.Wait() *)
  activeFailureBlockAfter : option BlockIdentifier;
  closeStorage : option error;                  (* localStore.Close(ctx) *)
  signalReceivedAfter : bool
}.

(** The answers for the first, second, ... call of one search. *)
Definition World : Type := nat -> Attempt.

(** What a search does that can be observed from outside, in order. *)
Inductive Event : Type :=
| EvRegisterCancel (attempt : nat)
| EvCreateTempDir (attempt : nat)
| EvRemoveTempDir (attempt : nat)
| EvOpenStorage (attempt : nat)
| EvCloseStorage (attempt : nat) (closed : bool)
| EvPipeline (attempt : nat) (p : Pipeline)
| EvRun (attempt : nat) (startIndex endIndex : Z)
| EvPrint (l : Line).

(** The pair of a block pointer and an error that a search returns. *)
Definition SearchResult : Type := (option BlockIdentifier * option error)%type.

Definition msgSearchHalted : string := "Search for block with missing ops halted".
Definition msgUnableToFind : string := "unable to find missing ops".

Definition msgNextWindow (newStart newEnd : Z) : string :=
  ("Next window to check has start index " ++ fmt_d newStart ++
   " <= end index " ++ fmt_d newEnd)%string.

Definition msgNowSearching (startIndex endIndex newStart newEnd : Z) : string :=
  ("Unable to find missing ops in block range " ++ fmt_d startIndex ++ "-" ++
   fmt_d endIndex ++ ", now searching " ++ fmt_d newStart ++ "-" ++
   fmt_d newEnd)%string.

Definition errHalted : error := errors_New msgSearchHalted.
Definition errUnableToFind : error := errors_New msgUnableToFind.
Definition errExhausted (newStart newEnd : Z) : error :=
  errors_New (msgNextWindow newStart newEnd).

Section Localizer.

Variable defaults : ReconcilerDefaults.
Variable t : DataTester.

(** Lines 334-399: the strict pipeline over the temporary directory. *)
Definition strictPipeline (accountCurrency : AccountCurrency)
    (tmpDir : string) : Pipeline :=
  let localStore : BadgerStorage := tmpDir in
  let blockStorage := {| bs_db := localStore |} in
  let balanceStorage := {| bal_db := localStore |} in
  let logger :=
    {| lg_counterStorage := localStore; lg_logDir := tmpDir;
       lg_logBlocks := false; lg_logTransactions := false;
       lg_logBalanceChanges := false; lg_logReconciliation := false |} in
  let balanceStorageHelper :=
    {| bsh_network := network t; bsh_fetcher := fetcher t;
       bsh_lookupBalanceByBlock :=
         negb (HistoricalBalanceDisabled (Data (config t)));
       bsh_exemptAccounts := [] |} in
  let reconcilerHelper :=
    {| rhp_blockStorage := blockStorage;
       rhp_balanceStorage := balanceStorage |} in
  let reconcilerHandler := NewReconcilerHandler logger true in
  let r :=
    reconciler_New defaults (network t) reconcilerHelper reconcilerHandler
      (fetcher t)
      [ WithActiveConcurrency 1;
        WithInactiveConcurrency 0;
        WithLookupBalanceByBlock
          (negb (HistoricalBalanceDisabled (Data (config t))));
        WithInterestingAccounts [accountCurrency] ] in
  let balanceStorageHandler :=
    {| bshd_logger := logger; bshd_reconciler := r; bshd_reconcile := true;
       bshd_interestingAccount := Some accountCurrency |} in
  let syncer :=
    {| sy_network := network t; sy_fetcher := fetcher t;
       sy_blockStorage := blockStorage; sy_logger := logger;
       sy_workers := [balanceStorage] |} in
  {| p_tmpDir := tmpDir; p_logger := logger;
     p_balanceStorageHelper := balanceStorageHelper;
     p_reconcilerHandler := reconcilerHandler;
     p_reconciler := r;
     p_balanceStorageHandler := balanceStorageHandler;
     p_syncer := syncer |}.

(** The events of a call that set up its storage, ran its window and
    closed the storage, without those of a nested call. *)
Definition ranAndClosed (attempt : nat) (accountCurrency : AccountCurrency)
    (tmpDir : string) (startIndex endIndex : Z) : list Event :=
  [ EvRegisterCancel attempt; EvCreateTempDir attempt; EvOpenStorage attempt;
    EvPipeline attempt (strictPipeline accountCurrency tmpDir);
    EvRun attempt startIndex endIndex; EvCloseStorage attempt true ].

(** The window the call computes after a clean attempt: the start is
    clamped to the genesis index. *)
Definition clampedStart (startIndex : Z) : Z :=
  let newStart := Int64.sub startIndex InactiveFailureLookbackWindow in
  if newStart <? Index (genesisBlock t) then Index (genesisBlock t) else newStart.

Definition nextEnd (endIndex : Z) : Z :=
  Int64.sub endIndex InactiveFailureLookbackWindow.

Variable w : World.

(** [recursiveOpSearch].  [attempt] counts the calls of one search and
    selects the answers of the world; [fuel] bounds the depth of the
    recursion the model follows.  The result is [None] while the search
    is still running when the fuel is spent, and the events are those
    seen so far.  The deferred [utils.RemoveTempDir] runs when the call
    returns, that is after the nested call when there is one. *)
Fixpoint recursiveOpSearch (fuel : nat) (attempt : nat)
    (accountCurrency : AccountCurrency) (startIndex endIndex : Z)
    {struct fuel} : option SearchResult * list Event :=
  match fuel with
  | O => (None, [])
  | S fuel' =>
    let a := w attempt in
    match createTempDir a with
    | inr err =>
      (Some (None, Some (fmt_Errorf_w err "unable to create temporary directory")),
       [EvRegisterCancel attempt])
    | inl tmpDir =>
      let '(res, evs) :=
        match newBadgerStorage a with
        | Some err =>
          (Some (None, Some (fmt_Errorf_w err "unable to initialize database")), [])
        | None =>
          let ran :=
            [ EvOpenStorage attempt;
              EvPipeline attempt (strictPipeline accountCurrency tmpDir);
              EvRun attempt startIndex endIndex ] in
          match closeStorage a with
          | Some storageErr =>
            (Some (None, Some (fmt_Errorf_w storageErr "unable to close database")),
             ran ++ [EvCloseStorage attempt false])
          | None =>
            let closed := ran ++ [EvCloseStorage attempt true] in
            if signalReceivedAfter a then
              (Some (None, Some errHalted), closed)
            else if isNil (wait a) || isCanceled (wait a) then
              let newStart := Int64.sub startIndex InactiveFailureLookbackWindow in
              let newStart :=
                if newStart <? Index (genesisBlock t)
                then Index (genesisBlock t) else newStart in
              let newEnd := Int64.sub endIndex InactiveFailureLookbackWindow in
              if newEnd <=? newStart then
                (Some (None, Some (errExhausted newStart newEnd)), closed)
              else
                let '(res, evs) :=
                  recursiveOpSearch fuel' (S attempt) accountCurrency
                    (Int64.sub startIndex InactiveFailureLookbackWindow)
                    (Int64.sub endIndex InactiveFailureLookbackWindow) in
                (res,
                 closed ++
                 [EvPrint (Red, msgNowSearching startIndex endIndex newStart newEnd)]
                 ++ evs)
            else
              match activeFailureBlockAfter a with
              | None => (Some (None, Some errUnableToFind), closed)
              | Some b => (Some (Some b, None), closed)
              end
          end
        end in
      (res,
       [EvRegisterCancel attempt; EvCreateTempDir attempt] ++ evs ++
       match res with Some _ => [EvRemoveTempDir attempt] | None => [] end)
    end
  end.

(** [types.AccountString] of the SDK. *)
Variable types_AccountString : AccountIdentifier -> string.

(** [FindMissingOps]: the lines it prints before [os.Exit(1)], which ends
    both outcomes, and the events of its search; no lines while the search
    is still running.  The failure and its block are pointers the
    reconciler handler sets together, and [HandleErr] returns only when the
    failure is set: with either of them nil the function dereferences a nil
    pointer, and the model stops there. *)
Definition FindMissingOps (fuel : nat) : option (list Line) * list Event :=
  match InactiveFailure (reconcilerHandler t),
        InactiveFailureBlock (reconcilerHandler t) with
  | Some failure, Some block =>
    let hold := (Red, "Searching for block with missing operations...hold tight"%string) in
    let '(res, evs) :=
      recursiveOpSearch fuel 0 failure
        (Int64.sub (Index block) InactiveFailureLookbackWindow)
        (Index block) in
    match res with
    | None => (None, EvPrint hold :: evs)
    | Some (_, Some err) =>
      (Some [hold; (Red, (Error err ++ ": could not find block with missing ops")%string)],
       EvPrint hold :: evs)
    | Some (Some badBlock, None) =>
      (Some [hold;
             (Red, ("Missing ops for " ++ types_AccountString (Account failure) ++
                    " in block " ++ fmt_d (Index badBlock) ++ ":" ++
                    Hash badBlock)%string)],
       EvPrint hold :: evs)
    | Some (None, None) => (None, EvPrint hold :: evs)
    end
  | _, _ => (None, [])
  end.

End Localizer.

(** ** InitializeData *)

(** What [InitializeData] does that can be observed from outside. *)
Inductive InitEvent : Type :=
| IEOpen (dataPath : string)
| IEClose (dataPath : string)
| IEPrint (msg : string)
| IEBalanceInitialize (helper : BalanceStorageHelper) (handler : BalanceStorageHandler)
| IEBootstrapBalances (file : string) (genesis : BlockIdentifier).

(** How [InitializeData] ends: [log.Fatalf] prints and leaves the process
    with status 1; otherwise a pointer, possibly nil, is returned. *)
Inductive InitResult : Type :=
| InitFatal (msg : string)
| InitReturn (tester : option DataTester).

(** The answers of the collaborators [InitializeData] calls. *)
Record InitWorld : Type := {
  ensurePathExists : string -> option error;
  initBadgerStorage : string -> option error;
  loadAndParse : string -> list AccountCurrency + error;
  getAllAccountCurrency : list AccountCurrency + error;
  getHeadBlockIdentifier : BlockIdentifier + error;
  bootstrapBalances : string -> BlockIdentifier -> option error;
  counterGet : CounterName -> Z + error
}.

(** A computation that logs and may stop the process with [log.Fatalf]. *)
Definition Init (A : Type) : Type := (list InitEvent * (string + A))%type.

Definition iret {A : Type} (a : A) : Init A := ([], inr a).

Definition ibind {A B : Type} (m : Init A) (k : A -> Init B) : Init B :=
  match m with
  | (evs, inl msg) => (evs, inl msg)
  | (evs, inr a) => let '(evs', r) := k a in (evs ++ evs', r)
  end.

Definition emit (e : InitEvent) : Init unit := ([e], inr tt).

Definition fatalf (err : error) (what : string) : forall {A : Type}, Init A :=
  fun A => ([], inl (Error err ++ ": " ++ what)%string).

Notation "x <- m ;; k" := (ibind m (fun x => k))
  (at level 61, m at next level, right associativity).
Notation "m ;;; k" := (ibind m (fun _ => k))
  (at level 61, right associativity).

Definition failOn (err : option error) (what : string) : Init unit :=
  match err with
  | Some e => fatalf e what
  | None => iret tt
  end.

Definition orFatal {A : Type} (r : A + error) (what : string) : Init A :=
  match r with
  | inr e => fatalf e what
  | inl a => iret a
  end.

Section Initialize.

Variable defaults : ReconcilerDefaults.
Variable types_Hash : NetworkIdentifier -> string.
Variable path_Join : list string -> string.
Variable types_PrettyPrintStruct : list AccountCurrency -> string.
Variable iw : InitWorld.

(** [loadAccounts]: the accounts of a file, none for the empty path. *)
Definition loadAccounts (filePath : string) : Init (list AccountCurrency + error) :=
  if (String.length filePath =? 0)%nat then iret (inl [])
  else
    match loadAndParse iw filePath with
    | inr err => iret (inr (fmt_Errorf_w err "unable to open account file"))
    | inl accounts =>
      emit (IEPrint ("Found " ++ fmt_d (Z.of_nat (List.length accounts)) ++
                     " accounts at " ++ filePath ++ ": " ++
                     types_PrettyPrintStruct accounts)%string) ;;;
      iret (inl accounts)
    end.

(** Lines 171-187: bootstrap balances if provided.  [finish] is the rest
    of the function, reached when there is nothing to bootstrap or the
    bootstrap succeeded. *)
Definition bootstrapIfProvided (config : Configuration)
    (genesisBlock : BlockIdentifier)
    (finish : Init (option DataTester)) : Init (option DataTester) :=
  if (0 <? String.length (BootstrapBalances (Data config)))%nat then
    let err :=
      match getHeadBlockIdentifier iw with
      | inl _ => None
      | inr e => Some e
      end in
    if isHeadBlockNotFound err then
      emit (IEBootstrapBalances (BootstrapBalances (Data config)) genesisBlock) ;;;
      failOn (bootstrapBalances iw (BootstrapBalances (Data config)) genesisBlock)
        "unable to bootstrap balances" ;;;
      finish
    else
      emit (IEPrint "Skipping balance bootstrapping because already started syncing") ;;;
      iret None
  else finish.

(** The body of [InitializeData] after the storage is opened, up to its
    [return]. *)
Definition initializeBody (config : Configuration)
    (network : NetworkIdentifier) (fetcher : Fetcher)
    (genesisBlock : BlockIdentifier) (reconcile : bool)
    (interestingAccount : option AccountCurrency)
    (dataPath : string) : Init (option DataTester) :=
  let localStore : BadgerStorage := dataPath in
  r <- loadAccounts (ExemptAccounts (Data config)) ;;
  exemptAccounts <- orFatal r "unable to load exempt accounts" ;;
  r <- loadAccounts (InterestingAccounts (Data config)) ;;
  interestingAccounts <- orFatal r "unable to load interesting accounts" ;;
  let counterStorage := {| cs_db := localStore; Get := counterGet iw |} in
  let blockStorage := {| bs_db := localStore |} in
  let balanceStorage := {| bal_db := localStore |} in
  let logger :=
    {| lg_counterStorage := localStore; lg_logDir := dataPath;
       lg_logBlocks := LogBlocks (Data config);
       lg_logTransactions := LogTransactions (Data config);
       lg_logBalanceChanges := LogBalanceChanges (Data config);
       lg_logReconciliation := LogReconciliations (Data config) |} in
  let reconcilerHelper :=
    {| rhp_blockStorage := blockStorage;
       rhp_balanceStorage := balanceStorage |} in
  let reconcilerHandler :=
    NewReconcilerHandler logger (negb (IgnoreReconciliationError (Data config))) in
  seenAccounts <-
    orFatal (getAllAccountCurrency iw) "unable to get previously seen accounts" ;;
  let r :=
    reconciler_New defaults network reconcilerHelper reconcilerHandler fetcher
      [ WithActiveConcurrency
          (Int64.wrap (ActiveReconciliationConcurrency (Data config)));
        WithInactiveConcurrency
          (Int64.wrap (InactiveReconciliationConcurrency (Data config)));
        WithLookupBalanceByBlock (negb (HistoricalBalanceDisabled (Data config)));
        WithInterestingAccounts interestingAccounts;
        WithSeenAccounts seenAccounts;
        WithDebugLogging (LogReconciliations (Data config));
        WithInactiveFrequency
          (Int64.wrap (InactiveReconciliationFrequency (Data config))) ] in
  let balanceStorageHelper :=
    {| bsh_network := network; bsh_fetcher := fetcher;
       bsh_lookupBalanceByBlock := negb (HistoricalBalanceDisabled (Data config));
       bsh_exemptAccounts := exemptAccounts |} in
  let balanceStorageHandler :=
    {| bshd_logger := logger; bshd_reconciler := r; bshd_reconcile := reconcile;
       bshd_interestingAccount := interestingAccount |} in
  emit (IEBalanceInitialize balanceStorageHelper balanceStorageHandler) ;;;
  bootstrapIfProvided config genesisBlock
    (let syncer :=
       {| sy_network := network; sy_fetcher := fetcher;
          sy_blockStorage := blockStorage; sy_logger := logger;
          sy_workers := [balanceStorage] |} in
     iret (Some {| network := network; config := config; syncer := syncer;
                   reconciler := r; logger := logger;
                   counterStorage := counterStorage;
                   reconcilerHandler := reconcilerHandler;
                   reconcile := reconcile; fetcher := fetcher;
                   genesisBlock := genesisBlock |})).

(** [InitializeData].  The deferred [localStore.Close] runs on both
    returns; [log.Fatalf] leaves the process without running it. *)
Definition InitializeData (config : Configuration)
    (network : NetworkIdentifier) (fetcher : Fetcher)
    (genesisBlock : BlockIdentifier) (reconcile : bool)
    (interestingAccount : option AccountCurrency)
    : list InitEvent * InitResult :=
  let dataPath :=
    path_Join [DataDirectory (Data config); "data"%string; types_Hash network] in
  let run : Init (option DataTester) :=
    failOn (ensurePathExists iw dataPath) "cannot populate path" ;;;
    failOn (initBadgerStorage iw dataPath) "unable to initialize database" ;;;
    emit (IEOpen dataPath) ;;;
    initializeBody config network fetcher genesisBlock reconcile
      interestingAccount dataPath in
  match run with
  | (evs, inl msg) => (evs, InitFatal msg)
  | (evs, inr tester) => (evs ++ [IEClose dataPath], InitReturn tester)
  end.

End Initialize.

(** ** Observations on traces *)

(** The ephemeral storages open after an event, given those open before
    it.  A [Close] that returns an error is not counted as closing. *)
Definition stepStorages (ev : Event) (n : nat) : nat :=
  match ev with
  | EvOpenStorage _ => S n
  | EvCloseStorage _ true => Nat.pred n
  | _ => n
  end.

(** The temporary directories that exist after an event. *)
Definition stepDirs (ev : Event) (n : nat) : nat :=
  match ev with
  | EvCreateTempDir _ => S n
  | EvRemoveTempDir _ => Nat.pred n
  | _ => n
  end.

(** The count after a run of events, and the highest count reached at any
    instant of it. *)
Fixpoint countAfter (step : Event -> nat -> nat) (n : nat) (evs : list Event) : nat :=
  match evs with
  | [] => n
  | ev :: evs' => countAfter step (step ev n) evs'
  end.

Fixpoint peak (step : Event -> nat -> nat) (n : nat) (evs : list Event) : nat :=
  match evs with
  | [] => n
  | ev :: evs' => Nat.max n (peak step (step ev n) evs')
  end.


(** The windows a search ran, in order. *)
Definition windowsRun (evs : list Event) : list (Z * Z) :=
  flat_map (fun ev => match ev with
                      | EvRun _ s e => [(s, e)]
                      | _ => []
                      end) evs.

(** What the search printed, in order. *)
Definition printed (evs : list Event) : list Line :=
  flat_map (fun ev => match ev with
                      | EvPrint l => [l]
                      | _ => []
                      end) evs.

(** A call whose collaborators all succeed, whose joint tasks end without
    a failure and during which no abort signal arrives. *)
Definition cleanAttempt (a : Attempt) : Prop :=
  (exists tmpDir, createTempDir a = inl tmpDir) /\
  newBadgerStorage a = None /\
  closeStorage a = None /\
  signalReceivedAfter a = false /\
  (wait a = None \/ wait a = Some context_Canceled).

(** A call that gets as far as reading the abort signal: its directory and
    storage were set up and the storage closed without error. *)
Definition reachesSignalCheck (a : Attempt) : Prop :=
  (exists tmpDir, createTempDir a = inl tmpDir) /\
  newBadgerStorage a = None /\
  closeStorage a = None.

(** The tester with another counter storage. *)
Definition withCounterStorage (cs : CounterStorage) (t : DataTester) : DataTester :=
  {| network := network t; config := config t; syncer := syncer t;
     reconciler := reconciler t; logger := logger t;
     counterStorage := cs;
     reconcilerHandler := reconcilerHandler t;
     reconcile := reconcile t; fetcher := fetcher t;
     genesisBlock := genesisBlock t |}.

(** ** Concrete instances *)

Module Sample.

Local Open Scope string_scope.

Definition net : NetworkIdentifier := {| Blockchain := "Bitcoin"; Network := "Testnet3" |}.

Definition conf (historicalBalanceDisabled : bool) (bootstrap : string) : Configuration :=
  {| Data :=
       {| DataDirectory := "/data"; ExemptAccounts := ""; InterestingAccounts := "";
          LogBlocks := false; LogTransactions := false;
          LogBalanceChanges := false; LogReconciliations := false;
          IgnoreReconciliationError := false;
          ActiveReconciliationConcurrency := 8;
          InactiveReconciliationConcurrency := 4;
          InactiveReconciliationFrequency := 250;
          HistoricalBalanceDisabled := historicalBalanceDisabled;
          BootstrapBalances := bootstrap |} |}.

Definition defaults : ReconcilerDefaults :=
  {| defaultActiveConcurrency := 8; defaultInactiveConcurrency := 8;
     defaultLookupBalanceByBlock := true; defaultInactiveFrequency := 200 |}.

Definition account : AccountCurrency :=
  {| Account := {| Address := "addr1" |};
     CurrencyOf := {| Symbol := "BTC"; Decimals := 8 |} |}.

Definition log : Logger :=
  {| lg_counterStorage := "/data/db"; lg_logDir := "/data/db";
     lg_logBlocks := false; lg_logTransactions := false;
     lg_logBalanceChanges := false; lg_logReconciliation := false |}.

Definition helper : ReconcilerHelper :=
  {| rhp_blockStorage := {| bs_db := "/data/db" |};
     rhp_balanceStorage := {| bal_db := "/data/db" |} |}.

(** A handler holding an inactive failure seen at block [failedAt]. *)
Definition handler (failedAt : option Z) : ReconcilerHandler :=
  {| rh_logger := log; haltOnReconciliationError := true;
     InactiveFailure :=
       match failedAt with Some _ => Some account | None => None end;
     InactiveFailureBlock :=
       match failedAt with
       | Some i => Some {| Index := i; Hash := "h" |}
       | None => None
       end;
     ActiveFailureBlock := None |}.

(** A tester for a chain with genesis index [genesis], whose counters
    read [active] and [inactive]. *)
Definition tester (genesis : Z) (historicalBalanceDisabled : bool)
    (failedAt : option Z) (active inactive : Z + error) : DataTester :=
  {| network := net;
     config := conf historicalBalanceDisabled "";
     syncer := {| sy_network := net; sy_fetcher := 0%nat;
                  sy_blockStorage := {| bs_db := "/data/db" |};
                  sy_logger := log; sy_workers := [ {| bal_db := "/data/db" |} ] |};
     reconciler := reconciler_New defaults net helper (handler failedAt) 0%nat [];
     logger := log;
     counterStorage :=
       {| cs_db := "/data/db";
          Get := fun c => match c with
                          | ActiveReconciliationCounter => active
                          | InactiveReconciliationCounter => inactive
                          end |};
     reconcilerHandler := handler failedAt;
     reconcile := true;
     fetcher := 0%nat;
     genesisBlock := {| Index := genesis; Hash := "genesis" |} |}.

(** A call that completes its window without a mismatch. *)
Definition clean : Attempt :=
  {| createTempDir := inl "/tmp/search";
     newBadgerStorage := None;
     wait := Some context_Canceled;
     activeFailureBlockAfter := None;
     closeStorage := None;
     signalReceivedAfter := false |}.

(** A call interrupted by the operator. *)
Definition interrupted : Attempt :=
  {| createTempDir := inl "/tmp/search";
     newBadgerStorage := None;
     wait := Some context_Canceled;
     activeFailureBlockAfter := None;
     closeStorage := None;
     signalReceivedAfter := true |}.

(** A call whose strict reconciliation fails at [block]. *)
Definition failing (block : option BlockIdentifier) : Attempt :=
  {| createTempDir := inl "/tmp/search";
     newBadgerStorage := None;
     wait := Some (errors_New "reconciliation failure");
     activeFailureBlockAfter := block;
     closeStorage := None;
     signalReceivedAfter := false |}.

Definition allClean : World := fun _ => clean.

Definition accountString (a : AccountIdentifier) : string := Address a.

(** Collaborators of [InitializeData] on a store that already has a
    head block. *)
Definition synced : InitWorld :=
  {| ensurePathExists := fun _ => None;
     initBadgerStorage := fun _ => None;
     loadAndParse := fun _ => inl [];
     getAllAccountCurrency := inl [];
     getHeadBlockIdentifier := inl {| Index := 42; Hash := "head" |};
     bootstrapBalances := fun _ _ => None;
     counterGet := fun _ => inl 0 |}.

(** The same on an empty store. *)
Definition fresh : InitWorld :=
  {| ensurePathExists := fun _ => None;
     initBadgerStorage := fun _ => None;
     loadAndParse := fun _ => inl [];
     getAllAccountCurrency := inl [];
     getHeadBlockIdentifier := inr storage_ErrHeadBlockNotFound;
     bootstrapBalances := fun _ _ => None;
     counterGet := fun _ => inl 0 |}.

Definition hash (n : NetworkIdentifier) : string := Blockchain n ++ "-" ++ Network n.
Definition join (parts : list string) : string := String.concat "/" parts.
Definition pretty (l : list AccountCurrency) : string :=
  String.concat "," (map (fun a => Address (Account a)) l).

End Sample.


(** The claim that a call has released both its storage and its temporary
    directory by the time the next call starts. *)
Definition releasedBeforeRecursing (evs : list Event) : Prop :=
  forall (pre post : list Event) (n : nat),
    evs = pre ++ EvRegisterCancel (S n) :: post ->
    countAfter stepStorages 0 pre = 0%nat /\ countAfter stepDirs 0 pre = 0%nat.

(** No storage is open at the instants at which a call starts. *)
Fixpoint closedAtCalls (open : nat) (evs : list Event) : bool :=
  match evs with
  | [] => true
  | ev :: evs' =>
    match ev with
    | EvRegisterCancel _ => (open =? 0)%nat
    | _ => true
    end && closedAtCalls (stepStorages ev open) evs'
  end.


(** An even start index within range with the end index next to it. *)
Definition evenBelowOdd (s e : Z) : Prop :=
  (exists k, s = 2 * k) /\ Int64.min <= s <= Int64.max - 1 /\ e = s + 1.


(** The line [InitializeData] prints when it finds a head block. *)
Definition msgSkippingBootstrap : string :=
  "Skipping balance bootstrapping because already started syncing".

(** A file of accounts that [loadAccounts] gets through. *)
Definition accountsLoad (iw : InitWorld) (filePath : string) : Prop :=
  filePath = EmptyString \/ exists l, loadAndParse iw filePath = inl l.

(** The collaborators called before the bootstrap step all succeed. *)
Definition reachesBootstrap (iw : InitWorld) (config : Configuration)
    (dataPath : string) : Prop :=
  ensurePathExists iw dataPath = None /\
  initBadgerStorage iw dataPath = None /\
  accountsLoad iw (ExemptAccounts (Data config)) /\
  accountsLoad iw (InterestingAccounts (Data config)) /\
  exists seen, getAllAccountCurrency iw = inl seen.


(** ** The remaining methods of the tester *)

(** [PeriodicLoggingFrequency], in nanoseconds as a [time.Duration]. *)
Definition PeriodicLoggingFrequency : Z := 10 * 1000000000.

(** [StartSyncing] hands its window to the syncer; [sync] is what
    [t.syncer.Sync] answers. *)
Definition StartSyncing (sync : Z -> Z -> option error)
    (startIndex endIndex : Z) : option error :=
  sync startIndex endIndex.

(** [StartReconciler]: nothing to do when reconciliation is off;
    [reconcileResult] is what [t.reconciler.Reconcile] answers. *)
Definition StartReconciler (t : DataTester) (reconcileResult : option error)
    : option error :=
  if negb (reconcile t) then None else reconcileResult.

(** What the periodic logger does: a snapshot of the counters, whose
    result is dropped, and a sleep. *)
Inductive LoggerEvent : Type :=
| LogCounterStorage (result : option error)
| Sleep (duration : Z).

(** [StartPeriodicLogger].  [ctxErr n] is what [ctx.Err()] answers the
    n-th time the loop asks, [logResult n] what the n-th snapshot answers;
    [fuel] bounds the iterations the model follows and the result is
    [None] while the loop is still running. *)
Fixpoint StartPeriodicLogger (fuel : nat) (ctxErr : nat -> option error)
    (logResult : nat -> option error) (iteration : nat)
    : option (option error) * list LoggerEvent :=
  match fuel with
  | O => (None, [])
  | S fuel' =>
    if isNil (ctxErr iteration) then
      let '(res, evs) :=
        StartPeriodicLogger fuel' ctxErr logResult (S iteration) in
      (res,
       LogCounterStorage (logResult iteration) :: Sleep PeriodicLoggingFrequency
       :: evs)
    else
      (* Print stats one last time before exiting *)
      (Some None, [LogCounterStorage (logResult iteration)])
  end.

(** The snapshots taken and the time slept along a run of the logger. *)
Definition snapshots (evs : list LoggerEvent) : nat :=
  List.length (filter (fun ev => match ev with
                                 | LogCounterStorage _ => true
                                 | Sleep _ => false
                                 end) evs).

Definition slept (evs : list LoggerEvent) : Z :=
  fold_right (fun ev acc => match ev with
                            | Sleep d => d + acc
                            | LogCounterStorage _ => acc
                            end) 0 evs.

(** ** More observations on traces *)

(** An index after [k] nested calls: each call passes on its index minus
    the lookback window. *)
Definition lowered (k : nat) (index : Z) : Z :=
  Nat.iter k (fun z => Int64.sub z InactiveFailureLookbackWindow) index.

(** The calls that registered a cancel function, in order. *)
Definition registeredCancels (evs : list Event) : list nat :=
  flat_map (fun ev => match ev with
                      | EvRegisterCancel n => [n]
                      | _ => []
                      end) evs.

(** The errors a search can return: its own three, and those of its
    collaborators wrapped with what the search was doing. *)
Inductive SearchError (w : World) : error -> Prop :=
| SearchHalted : SearchError w errHalted
| SearchUnableToFind : SearchError w errUnableToFind
| SearchExhausted (newStart newEnd : Z) :
    newEnd <= newStart -> SearchError w (errExhausted newStart newEnd)
| SearchNoTempDir (n : nat) (err : error) :
    createTempDir (w n) = inr err ->
    SearchError w (fmt_Errorf_w err "unable to create temporary directory")
| SearchNoStorage (n : nat) (err : error) :
    newBadgerStorage (w n) = Some err ->
    SearchError w (fmt_Errorf_w err "unable to initialize database")
| SearchNotClosed (n : nat) (err : error) :
    closeStorage (w n) = Some err ->
    SearchError w (fmt_Errorf_w err "unable to close database").


(** More instances: collaborators of [InitializeData] whose block store
    cannot be read, and a configuration that names account files. *)
Module SampleInit.

Local Open Scope string_scope.

Definition unreadable : InitWorld :=
  {| ensurePathExists := fun _ => None;
     initBadgerStorage := fun _ => None;
     loadAndParse := fun _ => inr (errors_New "no such file");
     getAllAccountCurrency := inl [];
     getHeadBlockIdentifier := inr (errors_New "database is corrupt");
     bootstrapBalances := fun _ _ => None;
     counterGet := fun _ => inl 0 |}.

Definition confFiles (exempt interesting bootstrap : string) : Configuration :=
  {| Data :=
       {| DataDirectory := "/data"; ExemptAccounts := exempt;
          InterestingAccounts := interesting;
          LogBlocks := false; LogTransactions := false;
          LogBalanceChanges := false; LogReconciliations := true;
          IgnoreReconciliationError := false;
          ActiveReconciliationConcurrency := 8;
          InactiveReconciliationConcurrency := 4;
          InactiveReconciliationFrequency := 250;
          HistoricalBalanceDisabled := false;
          BootstrapBalances := bootstrap |} |}.

Definition genesis : BlockIdentifier := {| Index := 0; Hash := "genesis" |}.

(** A context that is cancelled when the loop asks for the third time. *)
Definition cancelledAtThird (n : nat) : option error :=
  if (n <? 2)%nat then None else Some context_Canceled.

End SampleInit.

(** * Properties *)

(** ** Errors and messages *)

Lemma isNil_or_isCanceled (err : option error) :
  isNil err || isCanceled err = true <->
  err = None \/ err = Some context_Canceled.
Proof.
  split.
  - destruct err as [[| | |]|]; simpl; intro H; try discriminate; auto.
  - intros [-> | ->]; reflexivity.
Qed.

Lemma genuine_failure_not_clean (e : error) :
  e <> context_Canceled -> isNil (Some e) || isCanceled (Some e) = false.
Proof.
  destruct e; simpl; intro H; try reflexivity.
  contradiction H; reflexivity.
Qed.


(** ** HandleErr *)

Lemma reconciliationsSeen_read (a i : Z) :
  reconciliationsSeen (inl a) (inl i) = negb (a + i =? 0).
Proof.
  simpl. f_equal.
  destruct (Z.eqb_spec (a + i) 0) as [E | E].
  - rewrite E. reflexivity.
  - apply Z.eqb_neq. rewrite Z.sgn_null_iff. exact E.
Qed.

Lemma reconciliationsSeen_read_failed (active inactive : Z + error) :
  (exists e, active = inr e) \/ (exists e, inactive = inr e) ->
  reconciliationsSeen active inactive = true.
Proof.
  intros [[e ->] | [e ->]]; simpl.
  - reflexivity.
  - destruct active; reflexivity.
Qed.

(** On a clean end and without a pending signal, [HandleErr] prints one
    line chosen by the counters and leaves with status 0. *)
Lemma HandleErr_clean (t : DataTester) (err : option error) :
  err = None \/ err = Some context_Canceled ->
  HandleErr t false err =
  (if reconciliationsSeen
        (Get (counterStorage t) ActiveReconciliationCounter)
        (Get (counterStorage t) InactiveReconciliationCounter)
   then [(Green, msgSucceeded)]
   else [(Yellow, msgNoReconciliations)],
   Exit 0).
Proof.
  intro Hclean. apply isNil_or_isCanceled in Hclean.
  unfold HandleErr. rewrite Hclean.
  destruct (reconciliationsSeen _ _); reflexivity.
Qed.

(** C3.  When no abort signal is pending, a nil error or the cancellation
    that marks the end of the requested range makes [HandleErr] leave the
    process with status 0; with both counters read, it prints the plain
    success line when their sum is not zero and the warning that no
    reconciliations were performed when the sum is zero. *)
Theorem C3_clean_completion_passes (t : DataTester) (err : option error) :
  err = None \/ err = Some context_Canceled ->
  snd (HandleErr t false err) = Exit 0 /\
  forall a i : Z,
    Get (counterStorage t) ActiveReconciliationCounter = inl a ->
    Get (counterStorage t) InactiveReconciliationCounter = inl i ->
    (a + i <> 0 -> fst (HandleErr t false err) = [(Green, msgSucceeded)]) /\
    (a + i = 0 -> fst (HandleErr t false err) = [(Yellow, msgNoReconciliations)]).
Proof.
  intro Hclean. rewrite (HandleErr_clean t err Hclean). split.
  - reflexivity.
  - intros a i Ha Hi. rewrite Ha, Hi, reconciliationsSeen_read.
    split; intro Hsum.
    + apply Z.eqb_neq in Hsum. rewrite Hsum. reflexivity.
    + apply Z.eqb_eq in Hsum. rewrite Hsum. reflexivity.
Qed.

Lemma C3_witness :
  snd (HandleErr (Sample.tester 0 false None (inl 0) (inl 0)) false
         (Some context_Canceled)) = Exit 0 /\
  fst (HandleErr (Sample.tester 0 false None (inl 0) (inl 0)) false
         (Some context_Canceled)) = [(Yellow, msgNoReconciliations)].
Proof.
  destruct (C3_clean_completion_passes
              (Sample.tester 0 false None (inl 0) (inl 0))
              (Some context_Canceled) (or_intror eq_refl)) as [Hexit Hline].
  split.
  - exact Hexit.
  - apply (Hline 0 0 eq_refl eq_refl). reflexivity.
Defined.

(** C10.  When no abort signal is pending and the run ended cleanly, a
    failed read of either reconciliation counter makes [HandleErr] print
    the plain success line and leave with status 0, not the warning and not
    a failure: exactly what it does for a run whose counters were read and
    do not sum to zero. *)
Theorem C10_counter_read_failure_reported_as_success
    (t : DataTester) (err : option error) :
  err = None \/ err = Some context_Canceled ->
  (exists e, Get (counterStorage t) ActiveReconciliationCounter = inr e) \/
  (exists e, Get (counterStorage t) InactiveReconciliationCounter = inr e) ->
  HandleErr t false err = ([(Green, msgSucceeded)], Exit 0) /\
  fst (HandleErr t false err) <> [(Yellow, msgNoReconciliations)] /\
  forall (checked : DataTester) (a i : Z),
    Get (counterStorage checked) ActiveReconciliationCounter = inl a ->
    Get (counterStorage checked) InactiveReconciliationCounter = inl i ->
    a + i <> 0 ->
    HandleErr checked false err = HandleErr t false err.
Proof.
  intros Hclean Hread.
  assert (Ht : HandleErr t false err = ([(Green, msgSucceeded)], Exit 0)).
  { rewrite (HandleErr_clean t err Hclean).
    rewrite (reconciliationsSeen_read_failed _ _ Hread). reflexivity. }
  rewrite Ht. repeat split.
  - simpl. discriminate.
  - intros checked a i Ha Hi Hsum.
    rewrite (HandleErr_clean checked err Hclean).
    rewrite Ha, Hi, reconciliationsSeen_read.
    apply Z.eqb_neq in Hsum. rewrite Hsum. reflexivity.
Qed.

Lemma C10_witness :
  HandleErr (Sample.tester 0 false None (inr (errors_New "read failed")) (inl 0))
    false None = ([(Green, msgSucceeded)], Exit 0).
Proof.
  apply (C10_counter_read_failure_reported_as_success
           (Sample.tester 0 false None (inr (errors_New "read failed")) (inl 0))
           None (or_introl eq_refl)).
  left. exists (errors_New "read failed"). reflexivity.
Defined.

(** C5.  After a genuine failure, with an inactive failure recorded and
    the historical balance lookup disabled, [HandleErr] prints the failure
    and the notice that the block cannot be found automatically, and leaves
    with status 1.  Whatever the abort signal and the counters are, it
    leaves with status 1 and never returns to its caller, which is the only
    way the localizer is reached. *)
Theorem C5_diagnosis_unavailable
    (t : DataTester) (e : error) (failure : AccountCurrency) :
  e <> context_Canceled ->
  InactiveFailure (reconcilerHandler t) = Some failure ->
  HistoricalBalanceDisabled (Data (config t)) = true ->
  HandleErr t false (Some e) =
    ([(Red, ("Check failed: " ++ Error e)%string); (Red, msgCantFind)], Exit 1) /\
  (forall signalReceived cs,
     snd (HandleErr (withCounterStorage cs t) signalReceived (Some e)) = Exit 1 /\
     snd (HandleErr (withCounterStorage cs t) signalReceived (Some e)) <> Returned) /\
  (forall cs, HandleErr (withCounterStorage cs t) false (Some e) =
              HandleErr t false (Some e)).
Proof.
  intros Hgenuine Hfailure Hdisabled.
  assert (Hall : forall cs,
             HandleErr (withCounterStorage cs t) false (Some e) =
             ([(Red, ("Check failed: " ++ Error e)%string); (Red, msgCantFind)],
              Exit 1)).
  { intro cs. unfold HandleErr.
    rewrite (genuine_failure_not_clean e Hgenuine). simpl.
    rewrite Hfailure, Hdisabled. reflexivity. }
  assert (Ht : HandleErr t false (Some e) =
               ([(Red, ("Check failed: " ++ Error e)%string); (Red, msgCantFind)],
                Exit 1)).
  { unfold HandleErr.
    rewrite (genuine_failure_not_clean e Hgenuine).
    rewrite Hfailure, Hdisabled. reflexivity. }
  split; [exact Ht | split].
  - intros [|] cs.
    + split; [reflexivity | discriminate].
    + rewrite Hall. split; [reflexivity | discriminate].
  - intro cs. rewrite Hall, Ht. reflexivity.
Qed.

Lemma C5_witness :
  HandleErr (Sample.tester 0 true (Some 1000) (inl 7) (inl 3)) false
    (Some (errors_New "reconciliation failure")) =
  ([(Red, "Check failed: reconciliation failure"%string); (Red, msgCantFind)],
   Exit 1).
Proof.
  apply (C5_diagnosis_unavailable
           (Sample.tester 0 true (Some 1000) (inl 7) (inl 3))
           (errors_New "reconciliation failure") Sample.account).
  - discriminate.
  - reflexivity.
  - reflexivity.
Defined.

(** ** One call of the search *)

Section OneCall.

Variable defaults : ReconcilerDefaults.
Variable t : DataTester.
Variable w : World.

Lemma search_halted (fuel attempt : nat) (ac : AccountCurrency)
    (tmpDir : string) (s e : Z) :
  createTempDir (w attempt) = inl tmpDir ->
  newBadgerStorage (w attempt) = None ->
  closeStorage (w attempt) = None ->
  signalReceivedAfter (w attempt) = true ->
  recursiveOpSearch defaults t w (S fuel) attempt ac s e =
  (Some (None, Some errHalted),
   ranAndClosed defaults t attempt ac tmpDir s e ++ [EvRemoveTempDir attempt]).
Proof.
  intros Hdir Hopen Hclose Hsig. simpl.
  rewrite Hdir, Hopen, Hclose, Hsig. reflexivity.
Qed.

Lemma search_failed (fuel attempt : nat) (ac : AccountCurrency)
    (tmpDir : string) (s e : Z) (err : error) :
  createTempDir (w attempt) = inl tmpDir ->
  newBadgerStorage (w attempt) = None ->
  closeStorage (w attempt) = None ->
  signalReceivedAfter (w attempt) = false ->
  wait (w attempt) = Some err ->
  err <> context_Canceled ->
  recursiveOpSearch defaults t w (S fuel) attempt ac s e =
  (Some match activeFailureBlockAfter (w attempt) with
        | None => (None, Some errUnableToFind)
        | Some b => (Some b, None)
        end,
   ranAndClosed defaults t attempt ac tmpDir s e ++ [EvRemoveTempDir attempt]).
Proof.
  intros Hdir Hopen Hclose Hsig Hwait Herr. simpl.
  rewrite Hdir, Hopen, Hclose, Hsig, Hwait.
  rewrite (genuine_failure_not_clean err Herr).
  destruct (activeFailureBlockAfter (w attempt)); reflexivity.
Qed.

Lemma search_clean (fuel attempt : nat) (ac : AccountCurrency)
    (tmpDir : string) (s e : Z) :
  createTempDir (w attempt) = inl tmpDir ->
  newBadgerStorage (w attempt) = None ->
  closeStorage (w attempt) = None ->
  signalReceivedAfter (w attempt) = false ->
  wait (w attempt) = None \/ wait (w attempt) = Some context_Canceled ->
  recursiveOpSearch defaults t w (S fuel) attempt ac s e =
  if nextEnd e <=? clampedStart t s then
    (Some (None, Some (errExhausted (clampedStart t s) (nextEnd e))),
     ranAndClosed defaults t attempt ac tmpDir s e ++ [EvRemoveTempDir attempt])
  else
    let nested :=
      recursiveOpSearch defaults t w fuel (S attempt) ac
        (Int64.sub s InactiveFailureLookbackWindow)
        (Int64.sub e InactiveFailureLookbackWindow) in
    (fst nested,
     ranAndClosed defaults t attempt ac tmpDir s e ++
     [EvPrint (Red, msgNowSearching s e (clampedStart t s) (nextEnd e))] ++
     snd nested ++
     match fst nested with
     | Some _ => [EvRemoveTempDir attempt]
     | None => []
     end).
Proof.
  intros Hdir Hopen Hclose Hsig Hwait. simpl.
  rewrite Hdir, Hopen, Hclose, Hsig.
  apply isNil_or_isCanceled in Hwait. rewrite Hwait.
  fold (clampedStart t s). fold (nextEnd e).
  destruct (nextEnd e <=? clampedStart t s); [reflexivity |].
  destruct (recursiveOpSearch defaults t w fuel (S attempt) ac _ _) as [res evs].
  reflexivity.
Qed.

End OneCall.





(** ** Arithmetic of the wrap-around *)

Lemma wrap_eq (z : Z) :
  Int64.wrap z = (z + 9223372036854775808) mod 18446744073709551616
                 - 9223372036854775808.
Proof. reflexivity. Qed.

Lemma wrap_in_range (z : Z) : Int64.in_range (Int64.wrap z).
Proof.
  unfold Int64.in_range, Int64.min, Int64.max. rewrite wrap_eq.
  change (2 ^ 63) with 9223372036854775808.
  pose proof (Z.mod_pos_bound (z + 9223372036854775808) 18446744073709551616).
  lia.
Qed.

Lemma wrap_sub_wrap (a b : Z) : Int64.wrap (Int64.wrap a - b) = Int64.wrap (a - b).
Proof.
  rewrite !wrap_eq. f_equal.
  replace ((a + 9223372036854775808) mod 18446744073709551616
           - 9223372036854775808 - b + 9223372036854775808)
    with ((a + 9223372036854775808) mod 18446744073709551616 - b) by lia.
  rewrite Zminus_mod_idemp_l. f_equal. lia.
Qed.

(** Subtracting the window [k] times. *)
Lemma sub_window_iter (z k : Z) :
  Int64.sub (Int64.wrap (z - InactiveFailureLookbackWindow * k))
    InactiveFailureLookbackWindow =
  Int64.wrap (z - InactiveFailureLookbackWindow * (k + 1)).
Proof.
  unfold Int64.sub. rewrite wrap_sub_wrap. f_equal. lia.
Qed.

Lemma landing_pos (e : Z) : 1 <= landing e.
Proof.
  unfold landing.
  pose proof (Z.mod_pos_bound
                ((e - e mod 2 + 9223372036854775808) / 2 * inverse125)
                9223372036854775808).
  lia.
Qed.

Lemma landing_spec (e : Z) :
  Int64.wrap (e - InactiveFailureLookbackWindow * landing e) =
  Int64.min + e mod 2.
Proof.
  set (m := (e - e mod 2 + 9223372036854775808) / 2).
  assert (Hm : e - e mod 2 + 9223372036854775808 = 2 * m).
  { unfold m.
    pose proof (Z.div_mod (e - e mod 2 + 9223372036854775808) 2).
    assert ((e - e mod 2 + 9223372036854775808) mod 2 = 0).
    { replace (e - e mod 2 + 9223372036854775808)
        with (e - e mod 2 + 4611686018427387904 * 2) by lia.
      rewrite Z_mod_plus_full. rewrite Zminus_mod_idemp_r.
      rewrite Z.sub_diag. reflexivity. }
    lia. }
  assert (Hk : exists q, 125 * ((m * inverse125) mod 9223372036854775808)
                         = m + q * 9223372036854775808).
  { assert (Hmod : (125 * ((m * inverse125) mod 9223372036854775808))
                     mod 9223372036854775808 = m mod 9223372036854775808).
    { rewrite Z.mul_mod_idemp_r by lia.
      replace (125 * (m * inverse125)) with (m * (125 * inverse125)) by lia.
      rewrite <- Z.mul_mod_idemp_r by lia.
      replace ((125 * inverse125) mod 9223372036854775808) with 1 by reflexivity.
      f_equal. lia. }
    pose proof (Z.div_mod (125 * ((m * inverse125) mod 9223372036854775808))
                  9223372036854775808).
    pose proof (Z.div_mod m 9223372036854775808).
    exists ((125 * ((m * inverse125) mod 9223372036854775808)) / 9223372036854775808
            - m / 9223372036854775808).
    lia. }
  destruct Hk as [q Hq].
  unfold landing. fold m. rewrite wrap_eq.
  unfold InactiveFailureLookbackWindow, Int64.min.
  change (2 ^ 63) with 9223372036854775808.
  replace (e - 250 * ((m * inverse125) mod 9223372036854775808 + 9223372036854775808)
           + 9223372036854775808)
    with (e mod 2 + (- q - 125) * 18446744073709551616) by lia.
  rewrite Z_mod_plus_full.
  pose proof (Z.mod_pos_bound e 2).
  rewrite (Z.mod_small (e mod 2)) by lia. lia.
Qed.

(** ** The shape of a call and the fuel *)

Section CallShape.

Variable defaults : ReconcilerDefaults.
Variable t : DataTester.
Variable w : World.

(** Every call ends in one of four ways: before a directory exists,
    before a storage exists, after running its window and calling
    [Close] without recursing, or around a nested call. *)
Lemma search_shape (fuel attempt : nat) (ac : AccountCurrency) (s e : Z) :
  (exists r,
     recursiveOpSearch defaults t w (S fuel) attempt ac s e =
     (Some r, [EvRegisterCancel attempt])) \/
  (exists r,
     recursiveOpSearch defaults t w (S fuel) attempt ac s e =
     (Some r, [EvRegisterCancel attempt; EvCreateTempDir attempt;
               EvRemoveTempDir attempt])) \/
  (exists r tmpDir closed,
     recursiveOpSearch defaults t w (S fuel) attempt ac s e =
     (Some r,
      [EvRegisterCancel attempt; EvCreateTempDir attempt; EvOpenStorage attempt;
       EvPipeline attempt (strictPipeline defaults t ac tmpDir);
       EvRun attempt s e; EvCloseStorage attempt closed;
       EvRemoveTempDir attempt])) \/
  (exists tmpDir line,
     let nested :=
       recursiveOpSearch defaults t w fuel (S attempt) ac
         (Int64.sub s InactiveFailureLookbackWindow)
         (Int64.sub e InactiveFailureLookbackWindow) in
     recursiveOpSearch defaults t w (S fuel) attempt ac s e =
     (fst nested,
      ranAndClosed defaults t attempt ac tmpDir s e ++ [EvPrint line] ++
      snd nested ++
      match fst nested with
      | Some _ => [EvRemoveTempDir attempt]
      | None => []
      end)).
Proof.
  destruct (createTempDir (w attempt)) as [tmpDir | dirErr] eqn:Hdir.
  2:{ left. eexists. simpl. rewrite Hdir. reflexivity. }
  destruct (newBadgerStorage (w attempt)) as [openErr |] eqn:Hopen.
  { right. left. eexists. simpl. rewrite Hdir, Hopen. reflexivity. }
  destruct (closeStorage (w attempt)) as [closeErr |] eqn:Hclose.
  { right. right. left. eexists. exists tmpDir, false.
    simpl. rewrite Hdir, Hopen, Hclose. reflexivity. }
  destruct (signalReceivedAfter (w attempt)) eqn:Hsig.
  { right. right. left. eexists. exists tmpDir, true.
    apply search_halted; assumption. }
  destruct (isNil (wait (w attempt)) || isCanceled (wait (w attempt))) eqn:Hwait.
  - apply isNil_or_isCanceled in Hwait.
    pose proof (search_clean defaults t w fuel attempt ac tmpDir s e
                  Hdir Hopen Hclose Hsig Hwait) as Hstep.
    destruct (nextEnd e <=? clampedStart t s).
    + right. right. left. eexists. exists tmpDir, true. exact Hstep.
    + right. right. right. exists tmpDir. eexists. exact Hstep.
  - right. right. left.
    destruct (wait (w attempt)) as [err |] eqn:Hw; [| discriminate Hwait].
    assert (Herr : err <> context_Canceled).
    { intros ->. discriminate Hwait. }
    eexists. exists tmpDir, true.
    apply (search_failed defaults t w fuel attempt ac tmpDir s e err);
      assumption.
Qed.

(** Once a search has returned, more fuel changes nothing. *)
Lemma search_more_fuel (fuel : nat) :
  forall (attempt : nat) (ac : AccountCurrency) (s e : Z) (r : SearchResult),
    fst (recursiveOpSearch defaults t w fuel attempt ac s e) = Some r ->
    recursiveOpSearch defaults t w (S fuel) attempt ac s e =
    recursiveOpSearch defaults t w fuel attempt ac s e.
Proof.
  induction fuel as [| fuel IH]; intros attempt ac s e r Hr.
  - discriminate Hr.
  - destruct (createTempDir (w attempt)) as [tmpDir | dirErr] eqn:Hdir.
    2:{ cbn [recursiveOpSearch]. rewrite Hdir. reflexivity. }
    destruct (newBadgerStorage (w attempt)) as [openErr |] eqn:Hopen.
    { cbn [recursiveOpSearch]. rewrite Hdir, Hopen. reflexivity. }
    destruct (closeStorage (w attempt)) as [closeErr |] eqn:Hclose.
    { cbn [recursiveOpSearch]. rewrite Hdir, Hopen, Hclose. reflexivity. }
    destruct (signalReceivedAfter (w attempt)) eqn:Hsig.
    { rewrite !(search_halted defaults t w _ attempt ac tmpDir s e) by assumption.
      reflexivity. }
    destruct (isNil (wait (w attempt)) || isCanceled (wait (w attempt))) eqn:Hwait.
    + apply isNil_or_isCanceled in Hwait.
      rewrite (search_clean defaults t w fuel attempt ac tmpDir s e) in Hr
        by assumption.
      rewrite (search_clean defaults t w (S fuel) attempt ac tmpDir s e)
        by assumption.
      rewrite (search_clean defaults t w fuel attempt ac tmpDir s e)
        by assumption.
      destruct (nextEnd e <=? clampedStart t s); [reflexivity |].
      cbv zeta in *. simpl fst in Hr.
      rewrite (IH _ _ _ _ _ Hr). reflexivity.
    + destruct (wait (w attempt)) as [err |] eqn:Hw; [| discriminate Hwait].
      assert (Herr : err <> context_Canceled).
      { intros ->. discriminate Hwait. }
      rewrite !(search_failed defaults t w _ attempt ac tmpDir s e err)
        by assumption.
      reflexivity.
Qed.

End CallShape.

(** ** A search in which every window completes cleanly *)

Section CleanSearch.

Variable defaults : ReconcilerDefaults.
Variable t : DataTester.
Variable w : World.
Variable ac : AccountCurrency.

Hypothesis every_attempt_clean : forall k, cleanAttempt (w k).

Lemma clampedStart_ge_genesis (s : Z) : Index (genesisBlock t) <= clampedStart t s.
Proof.
  unfold clampedStart. cbv zeta.
  destruct (Z.ltb_spec (Int64.sub s InactiveFailureLookbackWindow)
              (Index (genesisBlock t))); lia.
Qed.

Lemma clean_result_step (fuel attempt : nat) (s e : Z) :
  fst (recursiveOpSearch defaults t w (S fuel) attempt ac s e) =
  if nextEnd e <=? clampedStart t s
  then Some (None, Some (errExhausted (clampedStart t s) (nextEnd e)))
  else fst (recursiveOpSearch defaults t w fuel (S attempt) ac
              (Int64.sub s InactiveFailureLookbackWindow)
              (Int64.sub e InactiveFailureLookbackWindow)).
Proof.
  destruct (every_attempt_clean attempt)
    as ([tmpDir Hdir] & Hopen & Hclose & Hsig & Hwait).
  rewrite (search_clean defaults t w fuel attempt ac tmpDir s e)
    by assumption.
  destruct (nextEnd e <=? clampedStart t s); reflexivity.
Qed.

(** Whatever the fuel, such a search returns nothing but the exhausted
    error. *)
Lemma clean_only_exhausted (fuel : nat) :
  forall (attempt : nat) (s e : Z) (r : SearchResult),
    fst (recursiveOpSearch defaults t w fuel attempt ac s e) = Some r ->
    exists newStart newEnd,
      r = (None, Some (errExhausted newStart newEnd)) /\ newEnd <= newStart.
Proof.
  induction fuel as [| fuel IH]; intros attempt s e r Hr.
  - discriminate Hr.
  - rewrite clean_result_step in Hr.
    destruct (Z.leb_spec (nextEnd e) (clampedStart t s)) as [Hle | Hgt].
    + injection Hr as <-. eauto.
    + eapply IH. exact Hr.
Qed.

(** If lowering the end index [n + 1] times brings it to the genesis
    index or below, [n + 1] calls are enough. *)
Lemma clean_exhausts_within (n : nat) :
  forall (attempt : nat) (s e : Z),
    Int64.wrap (e - InactiveFailureLookbackWindow * Z.of_nat (S n))
      <= Index (genesisBlock t) ->
    exists newStart newEnd,
      fst (recursiveOpSearch defaults t w (S n) attempt ac s e) =
        Some (None, Some (errExhausted newStart newEnd)) /\
      newEnd <= newStart.
Proof.
  induction n as [| n IH]; intros attempt s e Hland;
    rewrite clean_result_step;
    destruct (Z.leb_spec (nextEnd e) (clampedStart t s)) as [Hle | Hgt];
    eauto.
  - exfalso.
    pose proof (clampedStart_ge_genesis s).
    unfold nextEnd, Int64.sub in Hgt.
    replace (e - InactiveFailureLookbackWindow * Z.of_nat 1)
      with (e - InactiveFailureLookbackWindow) in Hland by lia.
    lia.
  - apply IH. unfold Int64.sub. rewrite wrap_sub_wrap.
    replace (e - InactiveFailureLookbackWindow
             - InactiveFailureLookbackWindow * Z.of_nat (S n))
      with (e - InactiveFailureLookbackWindow * Z.of_nat (S (S n))) by lia.
    exact Hland.
Qed.

(** With a genesis index above the lowest [int64], the search is
    exhausted after finitely many calls. *)
Lemma clean_search_exhausts (attempt : nat) (s e : Z) :
  Int64.min < Index (genesisBlock t) ->
  exists fuel newStart newEnd,
    fst (recursiveOpSearch defaults t w fuel attempt ac s e) =
      Some (None, Some (errExhausted newStart newEnd)) /\
    newEnd <= newStart.
Proof.
  intro Hgenesis.
  exists (S (Z.to_nat (landing e - 1))).
  apply clean_exhausts_within.
  pose proof (landing_pos e).
  replace (Z.of_nat (S (Z.to_nat (landing e - 1)))) with (landing e) by lia.
  rewrite landing_spec.
  pose proof (Z.mod_pos_bound e 2). lia.
Qed.

End CleanSearch.

(** C2.  For every initial window and every genesis index above the
    lowest [int64] value (block indices are not negative), a search in
    which every attempted window completes cleanly returns after finitely
    many calls, and what it returns is the error of the exhausted search
    space, raised when [newEnd <= newStart]: with no amount of fuel does it
    return a block or any other result. *)
Theorem C2_clean_search_is_exhausted
    (defaults : ReconcilerDefaults) (t : DataTester) (w : World)
    (ac : AccountCurrency) (startIndex endIndex : Z) :
  Int64.min < Index (genesisBlock t) ->
  (forall k, cleanAttempt (w k)) ->
  (exists fuel newStart newEnd,
     fst (recursiveOpSearch defaults t w fuel 0 ac startIndex endIndex) =
       Some (None, Some (errExhausted newStart newEnd)) /\
     newEnd <= newStart) /\
  (forall fuel r,
     fst (recursiveOpSearch defaults t w fuel 0 ac startIndex endIndex) = Some r ->
     exists newStart newEnd,
       r = (None, Some (errExhausted newStart newEnd)) /\ newEnd <= newStart).
Proof.
  intros Hgenesis Hclean. split.
  - apply clean_search_exhausts; assumption.
  - intros fuel r. apply clean_only_exhausted. exact Hclean.
Qed.

Lemma C2_witness :
  exists fuel newStart newEnd,
    fst (recursiveOpSearch Sample.defaults
           (Sample.tester 0 false (Some 1000) (inl 7) (inl 3))
           Sample.allClean fuel 0 Sample.account 750 1000) =
      Some (None, Some (errExhausted newStart newEnd)) /\
    newEnd <= newStart.
Proof.
  apply (C2_clean_search_is_exhausted Sample.defaults
           (Sample.tester 0 false (Some 1000) (inl 7) (inl 3))
           Sample.allClean Sample.account 750 1000).
  - reflexivity.
  - intro k. repeat split.
    + exists "/tmp/search"%string. reflexivity.
    + right. reflexivity.
Defined.

(** ** The lowest genesis index *)

(** The bound on the genesis index in the termination result cannot be
    dropped: with the lowest [int64] as genesis index, an even start index
    and the end index next to it, wrap-around keeps every next window non
    empty and above the genesis index, and the search never returns.  No
    chain has such a genesis block. *)
Section LowestGenesis.

Variable defaults : ReconcilerDefaults.
Variable t : DataTester.
Variable w : World.
Variable ac : AccountCurrency.

Hypothesis every_attempt_clean : forall k, cleanAttempt (w k).
Hypothesis genesis_lowest : Index (genesisBlock t) = Int64.min.

Lemma evenBelowOdd_next (s e : Z) :
  evenBelowOdd s e ->
  evenBelowOdd (Int64.sub s InactiveFailureLookbackWindow)
               (Int64.sub e InactiveFailureLookbackWindow).
Proof.
  intros ([k ->] & Hrange & ->).
  unfold evenBelowOdd, Int64.sub, InactiveFailureLookbackWindow,
    Int64.min, Int64.max in *.
  rewrite !wrap_eq. change (2 ^ 63) with 9223372036854775808 in *.
  pose proof (Z.div_mod (2 * k - 250 + 9223372036854775808)
                18446744073709551616) as Hdm.
  pose proof (Z.mod_pos_bound (2 * k - 250 + 9223372036854775808)
                18446744073709551616) as Hb.
  set (u := (2 * k - 250 + 9223372036854775808) mod 18446744073709551616) in *.
  set (q := (2 * k - 250 + 9223372036854775808) / 18446744073709551616) in *.
  assert (Hu : (2 * k + 1 - 250 + 9223372036854775808) mod 18446744073709551616
               = u + 1).
  { symmetry. apply (Z.mod_unique _ _ q); lia. }
  rewrite Hu. split; [| split].
  - exists (k - 125 - 9223372036854775808 * q). lia.
  - lia.
  - lia.
Qed.

Lemma search_never_returns (fuel : nat) :
  forall (attempt : nat) (s e : Z),
    evenBelowOdd s e ->
    fst (recursiveOpSearch defaults t w fuel attempt ac s e) = None.
Proof.
  induction fuel as [| fuel IH]; intros attempt s e Hinv.
  - reflexivity.
  - rewrite (clean_result_step defaults t w ac every_attempt_clean).
    pose proof (evenBelowOdd_next s e Hinv) as (_ & Hrange & Hnext).
    assert (Hstart : clampedStart t s = Int64.sub s InactiveFailureLookbackWindow).
    { unfold clampedStart. cbv zeta. rewrite genesis_lowest.
      destruct (Z.ltb_spec (Int64.sub s InactiveFailureLookbackWindow) Int64.min);
        [lia | reflexivity]. }
    unfold nextEnd. rewrite Hstart, Hnext.
    destruct (Z.leb_spec (Int64.sub s InactiveFailureLookbackWindow + 1)
                (Int64.sub s InactiveFailureLookbackWindow)); [lia |].
    rewrite <- Hnext. apply IH. apply evenBelowOdd_next. exact Hinv.
Qed.

End LowestGenesis.

(** ** Counting along a trace *)

Section Counting.

Variable step : Event -> nat -> nat.

Lemma countAfter_app (l1 l2 : list Event) :
  forall n, countAfter step n (l1 ++ l2) = countAfter step (countAfter step n l1) l2.
Proof.
  induction l1 as [| ev l1 IH]; intro n; simpl.
  - reflexivity.
  - apply IH.
Qed.

Lemma peak_app (l1 l2 : list Event) :
  forall n,
    peak step n (l1 ++ l2) =
    Nat.max (peak step n l1) (peak step (countAfter step n l1) l2).
Proof.
  induction l1 as [| ev l1 IH]; intro n; simpl.
  - destruct l2; simpl; lia.
  - rewrite IH. lia.
Qed.

Lemma start_le_peak (l : list Event) : forall n, (n <= peak step n l)%nat.
Proof.
  destruct l; intro n; simpl; lia.
Qed.

Lemma countAfter_le_peak (l : list Event) :
  forall n, (countAfter step n l <= peak step n l)%nat.
Proof.
  induction l as [| ev l IH]; intro n; simpl.
  - lia.
  - specialize (IH (step ev n)). lia.
Qed.

(** The count at any instant is bounded by the peak of the whole run. *)
Lemma prefix_le_peak (pre post : list Event) (n : nat) :
  (countAfter step n pre <= peak step n (pre ++ post))%nat.
Proof.
  rewrite peak_app.
  pose proof (countAfter_le_peak pre n). lia.
Qed.

End Counting.

Lemma closedAtCalls_app (l1 l2 : list Event) :
  forall n,
    closedAtCalls n (l1 ++ l2) =
    closedAtCalls n l1 && closedAtCalls (countAfter stepStorages n l1) l2.
Proof.
  induction l1 as [| ev l1 IH]; intro n; simpl.
  - reflexivity.
  - rewrite IH. rewrite andb_assoc. reflexivity.
Qed.

Lemma closedAtCalls_at (pre post : list Event) (k : nat) :
  forall n,
    closedAtCalls n (pre ++ EvRegisterCancel k :: post) = true ->
    countAfter stepStorages n pre = 0%nat.
Proof.
  induction pre as [| ev pre IH]; intros n H; simpl in *.
  - apply andb_true_iff in H. destruct H as [H _].
    apply Nat.eqb_eq in H. exact H.
  - apply andb_true_iff in H. destruct H as [_ H]. apply IH. exact H.
Qed.

(** ** Resources along a search *)

Section Resources.

Variable defaults : ReconcilerDefaults.
Variable t : DataTester.
Variable w : World.

(** At most one storage is ever open, and none when a call starts. *)
Lemma search_storages (fuel : nat) :
  forall (attempt : nat) (ac : AccountCurrency) (s e : Z),
    (peak stepStorages 0
       (snd (recursiveOpSearch defaults t w fuel attempt ac s e)) <= 1)%nat /\
    closedAtCalls 0
      (snd (recursiveOpSearch defaults t w fuel attempt ac s e)) = true.
Proof.
  induction fuel as [| fuel IH]; intros attempt ac s e.
  - simpl. split; [lia | reflexivity].
  - destruct (search_shape defaults t w fuel attempt ac s e)
      as [[r H] | [[r H] | [(r & tmpDir & closed & H) | (tmpDir & line & H)]]];
      cbv zeta in H; rewrite H; clear H.
    + simpl. split; [lia | reflexivity].
    + simpl. split; [lia | reflexivity].
    + destruct closed; simpl; (split; [lia | reflexivity]).
    + specialize (IH (S attempt) ac
                    (Int64.sub s InactiveFailureLookbackWindow)
                    (Int64.sub e InactiveFailureLookbackWindow)).
      destruct IH as [IHpeak IHclosed].
      destruct (recursiveOpSearch defaults t w fuel (S attempt) ac _ _)
        as [res evs].
      cbn [fst snd] in *. unfold ranAndClosed.
      cbn [app peak countAfter closedAtCalls stepStorages Nat.pred Nat.eqb andb].
      rewrite peak_app, closedAtCalls_app. rewrite IHclosed.
      pose proof (countAfter_le_peak stepStorages evs 0).
      destruct res;
        cbn [peak countAfter closedAtCalls stepStorages andb];
        (split; [lia | reflexivity]).
Qed.

(** Every storage that was opened has had [Close] called on it. *)
Lemma search_closes (fuel : nat) :
  forall (attempt : nat) (ac : AccountCurrency) (s e : Z) (n : nat),
    In (EvOpenStorage n)
       (snd (recursiveOpSearch defaults t w fuel attempt ac s e)) ->
    exists closed,
      In (EvCloseStorage n closed)
         (snd (recursiveOpSearch defaults t w fuel attempt ac s e)).
Proof.
  induction fuel as [| fuel IH]; intros attempt ac s e n.
  - simpl. contradiction.
  - destruct (search_shape defaults t w fuel attempt ac s e)
      as [[r H] | [[r H] | [(r & tmpDir & closed & H) | (tmpDir & line & H)]]];
      cbv zeta in H; rewrite H; clear H; cbn [snd].
    + simpl. intros [Hin | []]. discriminate Hin.
    + simpl. intros [Hin | [Hin | [Hin | []]]]; discriminate Hin.
    + simpl. intro Hin. exists closed.
      repeat (destruct Hin as [Hin | Hin]; try discriminate Hin);
        try contradiction.
      injection Hin as <-. auto 10.
    + specialize (IH (S attempt) ac
                    (Int64.sub s InactiveFailureLookbackWindow)
                    (Int64.sub e InactiveFailureLookbackWindow) n).
      destruct (recursiveOpSearch defaults t w fuel (S attempt) ac _ _)
        as [res evs].
      cbn [fst snd] in *. unfold ranAndClosed. intro Hin.
      rewrite !in_app_iff in Hin.
      destruct Hin as [Hin | [Hin | [Hin | Hin]]].
      * exists true. rewrite !in_app_iff. left. simpl in *.
        repeat (destruct Hin as [Hin | Hin]; try discriminate Hin);
          try contradiction.
        injection Hin as <-. auto 10.
      * simpl in Hin. destruct Hin as [Hin | []]. discriminate Hin.
      * destruct (IH Hin) as [closed Hc]. exists closed.
        rewrite !in_app_iff. auto.
      * destruct res; simpl in Hin; [| contradiction].
        destruct Hin as [Hin | []]. discriminate Hin.
Qed.

(** A search that has returned has removed every directory it made. *)
Lemma search_removes_dirs (fuel : nat) :
  forall (attempt : nat) (ac : AccountCurrency) (s e : Z)
         (r : SearchResult) (dirs : nat),
    fst (recursiveOpSearch defaults t w fuel attempt ac s e) = Some r ->
    countAfter stepDirs dirs
      (snd (recursiveOpSearch defaults t w fuel attempt ac s e)) = dirs.
Proof.
  induction fuel as [| fuel IH]; intros attempt ac s e r dirs.
  - simpl. discriminate.
  - destruct (search_shape defaults t w fuel attempt ac s e)
      as [[r' H] | [[r' H] | [(r' & tmpDir & closed & H) | (tmpDir & line & H)]]];
      cbv zeta in H; rewrite H; clear H; cbn [fst snd].
    + reflexivity.
    + reflexivity.
    + reflexivity.
    + specialize (IH (S attempt) ac
                    (Int64.sub s InactiveFailureLookbackWindow)
                    (Int64.sub e InactiveFailureLookbackWindow)).
      destruct (recursiveOpSearch defaults t w fuel (S attempt) ac _ _)
        as [res evs].
      cbn [fst snd] in *. intro Hres. rewrite Hres.
      unfold ranAndClosed. simpl. rewrite countAfter_app.
      rewrite (IH r (S dirs) Hres). reflexivity.
Qed.

(** Every pipeline of a search is the strict pipeline for the account
    under diagnosis. *)
Lemma search_pipelines (fuel : nat) :
  forall (attempt : nat) (ac : AccountCurrency) (s e : Z)
         (n : nat) (p : Pipeline),
    In (EvPipeline n p)
       (snd (recursiveOpSearch defaults t w fuel attempt ac s e)) ->
    exists tmpDir, p = strictPipeline defaults t ac tmpDir.
Proof.
  induction fuel as [| fuel IH]; intros attempt ac s e n p.
  - simpl. contradiction.
  - destruct (search_shape defaults t w fuel attempt ac s e)
      as [[r H] | [[r H] | [(r & tmpDir & closed & H) | (tmpDir & line & H)]]];
      cbv zeta in H; rewrite H; clear H; cbn [snd].
    + simpl. intros [Hin | []]. discriminate Hin.
    + simpl. intros [Hin | [Hin | [Hin | []]]]; discriminate Hin.
    + simpl. intro Hin. exists tmpDir.
      repeat (destruct Hin as [Hin | Hin]; try discriminate Hin);
        try contradiction.
      injection Hin as _ <-. reflexivity.
    + specialize (IH (S attempt) ac
                    (Int64.sub s InactiveFailureLookbackWindow)
                    (Int64.sub e InactiveFailureLookbackWindow) n p).
      destruct (recursiveOpSearch defaults t w fuel (S attempt) ac _ _)
        as [res evs].
      cbn [fst snd] in *. unfold ranAndClosed. intro Hin.
      rewrite !in_app_iff in Hin.
      destruct Hin as [Hin | [Hin | [Hin | Hin]]].
      * exists tmpDir. simpl in Hin.
        repeat (destruct Hin as [Hin | Hin]; try discriminate Hin);
          try contradiction.
        injection Hin as _ <-. reflexivity.
      * simpl in Hin. destruct Hin as [Hin | []]. discriminate Hin.
      * apply IH. exact Hin.
      * destruct res; simpl in Hin; [| contradiction].
        destruct Hin as [Hin | []]. discriminate Hin.
Qed.

End Resources.

(** ** Windows *)

Lemma windowsRun_app (l1 l2 : list Event) :
  windowsRun (l1 ++ l2) = windowsRun l1 ++ windowsRun l2.
Proof.
  unfold windowsRun. apply flat_map_app.
Qed.

(** Where the clamp does not bite, the computed window and the window of
    the nested call are the same. *)
Lemma clampedStart_above_genesis (t : DataTester) (s : Z) :
  Index (genesisBlock t) <= Int64.sub s InactiveFailureLookbackWindow ->
  clampedStart t s = Int64.sub s InactiveFailureLookbackWindow.
Proof.
  intro H. unfold clampedStart. cbv zeta.
  destruct (Z.ltb_spec (Int64.sub s InactiveFailureLookbackWindow)
              (Index (genesisBlock t))); [lia | reflexivity].
Qed.

(** Where it bites, they differ. *)
Lemma clampedStart_below_genesis (t : DataTester) (s : Z) :
  Int64.sub s InactiveFailureLookbackWindow < Index (genesisBlock t) ->
  clampedStart t s = Index (genesisBlock t) /\
  clampedStart t s <> Int64.sub s InactiveFailureLookbackWindow.
Proof.
  intro H. unfold clampedStart. cbv zeta.
  destruct (Z.ltb_spec (Int64.sub s InactiveFailureLookbackWindow)
              (Index (genesisBlock t))); lia.
Qed.

(** After a clean attempt that does not exhaust the search, the window of
    the next call is the old one lowered by the lookback window at both
    ends: the start passed on is not the clamped one. *)
Lemma next_window_run
    (defaults : ReconcilerDefaults) (t : DataTester) (w : World)
    (fuel attempt : nat) (ac : AccountCurrency) (s e : Z) :
  (forall k, cleanAttempt (w k)) ->
  clampedStart t s < nextEnd e ->
  exists rest,
    windowsRun (snd (recursiveOpSearch defaults t w (S (S fuel)) attempt ac s e)) =
    (s, e) :: (Int64.sub s InactiveFailureLookbackWindow,
               Int64.sub e InactiveFailureLookbackWindow) :: rest.
Proof.
  intros Hclean Hmore.
  destruct (Hclean attempt) as ([tmpDir Hdir] & Hopen & Hclose & Hsig & Hwait).
  destruct (Hclean (S attempt)) as ([tmpDir' Hdir'] & Hopen' & Hclose' & Hsig' & Hwait').
  rewrite (search_clean defaults t w (S fuel) attempt ac tmpDir s e) by assumption.
  destruct (Z.leb_spec (nextEnd e) (clampedStart t s)) as [Hle | _]; [lia |].
  cbv zeta. cbn [snd]. rewrite !windowsRun_app. cbn [ranAndClosed windowsRun flat_map app].
  rewrite (search_clean defaults t w fuel (S attempt) ac tmpDir') by assumption.
  destruct (nextEnd _ <=? clampedStart t _); cbv zeta; cbn [snd fst];
    rewrite !windowsRun_app; cbn [ranAndClosed windowsRun flat_map app];
    eexists; reflexivity.
Qed.

(** The run of the specification: genesis index 0 and an inactive failure
    seen at block 1000.  The windows are [750,1000], [500,750], [250,500]
    and then [0,250], after which the search space is exhausted. *)
Lemma windows_from_block_1000 :
  let t := Sample.tester 0 false (Some 1000) (inl 7) (inl 3) in
  let run := FindMissingOps Sample.defaults t Sample.allClean Sample.accountString 4 in
  windowsRun (snd run) = [(750, 1000); (500, 750); (250, 500); (0, 250)] /\
  fst run =
    Some [ (Red, "Searching for block with missing operations...hold tight"%string);
           (Red, "Next window to check has start index 0 <= end index 0: could not find block with missing ops"%string) ].
Proof.
  split; reflexivity.
Qed.

(** C1.  Genesis index 0 and an inactive failure seen at block 350, every
    window completing cleanly.  The first window is [100,350]; the call
    computes the clamped next window [0,100] and announces it, yet the
    nested call receives [startIndex - 250] and runs [-150,100]. *)
Theorem C1_nested_call_gets_unclamped_start :
  let t := Sample.tester 0 false (Some 350) (inl 7) (inl 3) in
  let run := FindMissingOps Sample.defaults t Sample.allClean Sample.accountString 4 in
  clampedStart t 100 = 0 /\
  nextEnd 350 = 100 /\
  windowsRun (snd run) = [(100, 350); (-150, 100)] /\
  printed (snd run) =
    [ (Red, "Searching for block with missing operations...hold tight"%string);
      (Red, "Unable to find missing ops in block range 100-350, now searching 0-100"%string) ] /\
  fst run =
    Some [ (Red, "Searching for block with missing operations...hold tight"%string);
           (Red, "Next window to check has start index 0 <= end index -150: could not find block with missing ops"%string) ].
Proof.
  repeat split; reflexivity.
Qed.

(** ** Ephemeral storage *)

(** C8, as amended.  At every instant of a search at most one ephemeral
    storage is open; none is open when a call starts, so each call has
    closed its storage before the nested call begins; [Close] is called on
    every storage that was opened; and a search that has returned has
    removed every temporary directory it made.  (The directory of a call is
    removed when the call returns, after the nested call.) *)
Theorem C8_one_storage_open_at_a_time
    (defaults : ReconcilerDefaults) (t : DataTester) (w : World)
    (fuel attempt : nat) (ac : AccountCurrency) (s e : Z) :
  let run := recursiveOpSearch defaults t w fuel attempt ac s e in
  (forall pre post,
     snd run = pre ++ post -> (countAfter stepStorages 0 pre <= 1)%nat) /\
  (forall pre post n,
     snd run = pre ++ EvRegisterCancel n :: post ->
     countAfter stepStorages 0 pre = 0%nat) /\
  (forall n,
     In (EvOpenStorage n) (snd run) ->
     exists closed, In (EvCloseStorage n closed) (snd run)) /\
  (forall r, fst run = Some r -> countAfter stepDirs 0 (snd run) = 0%nat).
Proof.
  cbv zeta.
  destruct (search_storages defaults t w fuel attempt ac s e) as [Hpeak Hcalls].
  split; [| split; [| split]].
  - intros pre post Hsplit. rewrite Hsplit in Hpeak.
    pose proof (prefix_le_peak stepStorages pre post 0). lia.
  - intros pre post n Hsplit. rewrite Hsplit in Hcalls.
    apply (closedAtCalls_at pre post n 0 Hcalls).
  - apply search_closes.
  - intros r Hr. apply (search_removes_dirs defaults t w fuel attempt ac s e r 0 Hr).
Qed.

Lemma C8_witness :
  countAfter stepDirs 0
    (snd (recursiveOpSearch Sample.defaults
            (Sample.tester 0 false (Some 1000) (inl 7) (inl 3))
            Sample.allClean 4 0 Sample.account 750 1000)) = 0%nat.
Proof.
  eapply (C8_one_storage_open_at_a_time Sample.defaults
            (Sample.tester 0 false (Some 1000) (inl 7) (inl 3))
            Sample.allClean 4 0 Sample.account 750 1000).
  reflexivity.
Defined.

(** C8, as stated, fails: in the run from block 1000 the directory of the
    first call still exists when the second call starts. *)
Lemma C8_directory_outlives_nested_call :
  ~ releasedBeforeRecursing
      (snd (recursiveOpSearch Sample.defaults
              (Sample.tester 0 false (Some 1000) (inl 7) (inl 3))
              Sample.allClean 4 0 Sample.account 750 1000)).
Proof.
  intro Hreleased.
  set (evs := snd (recursiveOpSearch Sample.defaults
                     (Sample.tester 0 false (Some 1000) (inl 7) (inl 3))
                     Sample.allClean 4 0 Sample.account 750 1000)) in *.
  destruct (Hreleased (firstn 7 evs) (skipn 8 evs) 0%nat eq_refl) as [_ Hdirs].
  discriminate Hdirs.
Qed.

(** ** InitializeData *)

Lemma ibind_events {A B : Type} (m : Init A) (k : A -> Init B) (ev : InitEvent) :
  In ev (fst (ibind m k)) ->
  In ev (fst m) \/ exists a, snd m = inr a /\ In ev (fst (k a)).
Proof.
  destruct m as [evs [msg | a]]; simpl.
  - auto.
  - destruct (k a) as [evs' r] eqn:Hk. simpl. rewrite in_app_iff.
    intros [H | H]; [left; exact H | right].
    exists a. rewrite Hk. auto.
Qed.

Lemma ibind_ok {A B : Type} (m : Init A) (k : A -> Init B) (a : A) :
  snd m = inr a ->
  ibind m k = (fst m ++ fst (k a), snd (k a)).
Proof.
  destruct m as [evs [msg | a']]; simpl; intro H; [discriminate |].
  injection H as ->. destruct (k a). reflexivity.
Qed.

Lemma ibind_returned {A B : Type} (m : Init A) (k : A -> Init B) (b : B) :
  snd (ibind m k) = inr b ->
  exists a, snd m = inr a /\ snd (k a) = inr b.
Proof.
  destruct m as [evs [msg | a]]; simpl.
  - discriminate.
  - destruct (k a) as [evs' r] eqn:Hk. simpl. intros ->.
    exists a. rewrite Hk. auto.
Qed.


Lemma orFatal_events {A : Type} (r : A + error) (what : string) :
  fst (orFatal r what) = [].
Proof. destruct r; reflexivity. Qed.


Section InitializeFacts.

Variable defaults : ReconcilerDefaults.
Variable types_Hash : NetworkIdentifier -> string.
Variable path_Join : list string -> string.
Variable types_PrettyPrintStruct : list AccountCurrency -> string.
Variable iw : InitWorld.

Lemma loadAccounts_events (filePath : string) (ev : InitEvent) :
  In ev (fst (loadAccounts types_PrettyPrintStruct iw filePath)) ->
  exists msg, ev = IEPrint msg.
Proof.
  unfold loadAccounts.
  destruct (String.length filePath =? 0)%nat; simpl; [contradiction |].
  destruct (loadAndParse iw filePath); simpl; [| contradiction].
  intros [<- | []]. eauto.
Qed.

Lemma loadAccounts_ok (filePath : string) :
  accountsLoad iw filePath ->
  exists evs l,
    loadAccounts types_PrettyPrintStruct iw filePath = (evs, inr (inl l)).
Proof.
  unfold loadAccounts. intros [-> | [l Hl]].
  - simpl. do 2 eexists. reflexivity.
  - destruct (String.length filePath =? 0)%nat.
    + simpl. do 2 eexists. reflexivity.
    + rewrite Hl. simpl. do 2 eexists. reflexivity.
Qed.



Variable config : Configuration.
Variable network : NetworkIdentifier.
Variable fetcher : Fetcher.
Variable genesisBlock : BlockIdentifier.
Variable reconcile : bool.
Variable interestingAccount : option AccountCurrency.




End InitializeFacts.



(** The tester [InitializeData] returns carries the configuration it was
    given, and its reconciler looks balances up by block exactly when the
    configuration does not disable it: the setting the strict pipeline of
    a search copies. *)
Lemma InitializeData_lookup_setting
    (defaults : ReconcilerDefaults)
    (types_Hash : NetworkIdentifier -> string)
    (path_Join : list string -> string)
    (types_PrettyPrintStruct : list AccountCurrency -> string)
    (iw : InitWorld) (config0 : Configuration) (network0 : NetworkIdentifier)
    (fetcher0 : Fetcher) (genesis : BlockIdentifier) (reconcile0 : bool)
    (interestingAccount : option AccountCurrency)
    (evs : list InitEvent) (tester : DataTester) :
  InitializeData defaults types_Hash path_Join types_PrettyPrintStruct iw
    config0 network0 fetcher0 genesis reconcile0 interestingAccount
    = (evs, InitReturn (Some tester)) ->
  config tester = config0 /\
  genesisBlock tester = genesis /\
  lookupBalanceByBlock (reconciler tester) =
    negb (HistoricalBalanceDisabled (Data config0)).
Proof.
  unfold InitializeData. cbv zeta.
  set (dataPath :=
         path_Join [DataDirectory (Data config0); "data"%string; types_Hash network0]).
  intro Hrun.
  match type of Hrun with
  | match ?m with _ => _ end = _ => destruct m as [evs' [msg | tester']] eqn:Hm
  end; [discriminate |].
  injection Hrun as _ ->.
  assert (Hsnd : snd (evs', @inr string _ (Some tester)) = inr (Some tester))
    by reflexivity.
  rewrite <- Hm in Hsnd. clear Hm.
  apply ibind_returned in Hsnd. destruct Hsnd as (u1 & _ & Hsnd).
  apply ibind_returned in Hsnd. destruct Hsnd as (u2 & _ & Hsnd).
  apply ibind_returned in Hsnd. destruct Hsnd as (u3 & _ & Hsnd).
  unfold initializeBody in Hsnd. cbv zeta in Hsnd.
  apply ibind_returned in Hsnd. destruct Hsnd as (r1 & _ & Hsnd).
  apply ibind_returned in Hsnd. destruct Hsnd as (exempt & _ & Hsnd).
  apply ibind_returned in Hsnd. destruct Hsnd as (r2 & _ & Hsnd).
  apply ibind_returned in Hsnd. destruct Hsnd as (interesting & _ & Hsnd).
  apply ibind_returned in Hsnd. destruct Hsnd as (seen & _ & Hsnd).
  apply ibind_returned in Hsnd. destruct Hsnd as (u4 & _ & Hsnd).
  unfold bootstrapIfProvided in Hsnd.
  destruct (0 <? String.length (BootstrapBalances (Data config0)))%nat.
  - destruct (isHeadBlockNotFound _).
    + apply ibind_returned in Hsnd. destruct Hsnd as (u5 & _ & Hsnd).
      apply ibind_returned in Hsnd. destruct Hsnd as (u6 & _ & Hsnd).
      simpl in Hsnd. injection Hsnd as <-. repeat split.
    + simpl in Hsnd. discriminate Hsnd.
  - simpl in Hsnd. injection Hsnd as <-. repeat split.
Qed.

(** ** Configuration of the strict reconciler *)

(** C7.  Every pipeline a search builds has a reconciler with active
    concurrency 1, inactive concurrency 0, the account under diagnosis as
    its only interesting account, a handler that halts on a reconciliation
    error, and the balance lookup by block that the configuration of the
    tester asks for, which is also the setting of the reconciler that
    [InitializeData] built for that tester. *)
Theorem C7_strict_reconciler_settings
    (defaults : ReconcilerDefaults) (t : DataTester) (w : World)
    (fuel attempt : nat) (ac : AccountCurrency) (s e : Z)
    (n : nat) (p : Pipeline) :
  In (EvPipeline n p)
     (snd (recursiveOpSearch defaults t w fuel attempt ac s e)) ->
  activeConcurrency (p_reconciler p) = 1 /\
  inactiveConcurrency (p_reconciler p) = 0 /\
  interestingAccounts (p_reconciler p) = [ac] /\
  haltOnReconciliationError (r_handler (p_reconciler p)) = true /\
  lookupBalanceByBlock (p_reconciler p) =
    negb (HistoricalBalanceDisabled (Data (config t))) /\
  (forall defaults0 types_Hash path_Join types_PrettyPrintStruct iw
          network0 fetcher0 genesis reconcile0 interestingAccount evs,
     InitializeData defaults0 types_Hash path_Join types_PrettyPrintStruct iw
       (config t) network0 fetcher0 genesis reconcile0 interestingAccount
       = (evs, InitReturn (Some t)) ->
     lookupBalanceByBlock (p_reconciler p) =
     lookupBalanceByBlock (reconciler t)).
Proof.
  intro Hin.
  destruct (search_pipelines defaults t w fuel attempt ac s e n p Hin)
    as [tmpDir ->].
  repeat split.
  intros defaults0 types_Hash path_Join types_PrettyPrintStruct iw
    network0 fetcher0 genesis reconcile0 interestingAccount evs Hinit.
  apply InitializeData_lookup_setting in Hinit.
  destruct Hinit as (_ & _ & ->). reflexivity.
Qed.

Lemma C7_witness :
  activeConcurrency
    (p_reconciler
       (strictPipeline Sample.defaults
          (Sample.tester 0 false (Some 1000) (inl 7) (inl 3))
          Sample.account "/tmp/search")) = 1.
Proof.
  apply (C7_strict_reconciler_settings Sample.defaults
           (Sample.tester 0 false (Some 1000) (inl 7) (inl 3))
           Sample.allClean 1 0 Sample.account 750 1000 0).
  simpl. right. right. right. left. reflexivity.
Defined.

(** * Further properties *)

(** ** The verdicts of HandleErr *)

(** X1.  [HandleErr] leaves with status 0 exactly when no abort signal is
    pending and the error is nil or is [context.Canceled] itself; an error
    that merely wraps a cancellation is a failure. *)
Theorem X1_HandleErr_succeeds_iff
    (t : DataTester) (signalReceived : bool) (err : option error) :
  snd (HandleErr t signalReceived err) = Exit 0 <->
  signalReceived = false /\ (err = None \/ err = Some context_Canceled).
Proof.
  split.
  - destruct signalReceived; [discriminate |].
    intro H. split; [reflexivity |].
    apply isNil_or_isCanceled.
    unfold HandleErr in H.
    destruct (isNil err || isCanceled err); [reflexivity |].
    destruct (InactiveFailure (reconcilerHandler t));
      [destruct (HistoricalBalanceDisabled (Data (config t))) |];
      discriminate H.
  - intros [-> Hclean]. rewrite (HandleErr_clean t err Hclean). reflexivity.
Qed.

(** X2.  [HandleErr] returns to its caller, which then starts the search
    for the block with missing operations, exactly when no abort signal is
    pending, the error is a genuine failure, an inactive failure was
    recorded and the lookup of historical balances is not disabled; in
    every other case it ends the process. *)
Theorem X2_HandleErr_returns_iff
    (t : DataTester) (signalReceived : bool) (err : option error) :
  snd (HandleErr t signalReceived err) = Returned <->
  signalReceived = false /\
  (exists e, err = Some e /\ e <> context_Canceled) /\
  (exists failure, InactiveFailure (reconcilerHandler t) = Some failure) /\
  HistoricalBalanceDisabled (Data (config t)) = false.
Proof.
  split.
  - destruct signalReceived; [discriminate |].
    unfold HandleErr.
    destruct (isNil err || isCanceled err) eqn:Hclean.
    { destruct (reconciliationsSeen _ _); discriminate. }
    destruct (InactiveFailure (reconcilerHandler t)) as [failure |];
      [| discriminate].
    destruct (HistoricalBalanceDisabled (Data (config t))); [discriminate |].
    intros _. repeat split.
    + destruct err as [e |]; [| discriminate Hclean].
      exists e. split; [reflexivity |]. intros ->. discriminate Hclean.
    + exists failure. reflexivity.
  - intros (-> & (e & -> & He) & (failure & Hf) & Hd).
    unfold HandleErr. rewrite (genuine_failure_not_clean e He), Hf, Hd.
    reflexivity.
Qed.

(** X3.  A genuine failure for which the reconciler recorded no inactive
    failure is reported by its message alone and ends the process with
    status 1, whether or not historical balances can be looked up. *)
Theorem X3_HandleErr_failure_without_record
    (t : DataTester) (e : error) :
  e <> context_Canceled ->
  InactiveFailure (reconcilerHandler t) = None ->
  HandleErr t false (Some e) =
  ([(Red, ("Check failed: " ++ Error e)%string)], Exit 1).
Proof.
  intros He Hnone. unfold HandleErr.
  rewrite (genuine_failure_not_clean e He), Hnone. reflexivity.
Qed.

Lemma X3_witness :
  HandleErr (Sample.tester 0 true None (inl 7) (inl 3)) false
    (Some (fmt_Errorf_w context_Canceled "sync stopped")) =
  ([(Red, "Check failed: context canceled: sync stopped"%string)], Exit 1).
Proof.
  apply (X3_HandleErr_failure_without_record
           (Sample.tester 0 true None (inl 7) (inl 3))
           (fmt_Errorf_w context_Canceled "sync stopped")).
  - discriminate.
  - reflexivity.
Defined.

(** ** Results of a search *)

Section SearchResults.

Variable defaults : ReconcilerDefaults.
Variable t : DataTester.
Variable w : World.

Lemma search_no_tempdir (fuel attempt : nat) (ac : AccountCurrency)
    (s e : Z) (err : error) :
  createTempDir (w attempt) = inr err ->
  recursiveOpSearch defaults t w (S fuel) attempt ac s e =
  (Some (None, Some (fmt_Errorf_w err "unable to create temporary directory")),
   [EvRegisterCancel attempt]).
Proof.
  intro Hdir. simpl. rewrite Hdir. reflexivity.
Qed.

Lemma search_no_storage (fuel attempt : nat) (ac : AccountCurrency)
    (tmpDir : string) (s e : Z) (err : error) :
  createTempDir (w attempt) = inl tmpDir ->
  newBadgerStorage (w attempt) = Some err ->
  recursiveOpSearch defaults t w (S fuel) attempt ac s e =
  (Some (None, Some (fmt_Errorf_w err "unable to initialize database")),
   [EvRegisterCancel attempt; EvCreateTempDir attempt; EvRemoveTempDir attempt]).
Proof.
  intros Hdir Hopen. simpl. rewrite Hdir, Hopen. reflexivity.
Qed.

Lemma search_not_closed (fuel attempt : nat) (ac : AccountCurrency)
    (tmpDir : string) (s e : Z) (err : error) :
  createTempDir (w attempt) = inl tmpDir ->
  newBadgerStorage (w attempt) = None ->
  closeStorage (w attempt) = Some err ->
  recursiveOpSearch defaults t w (S fuel) attempt ac s e =
  (Some (None, Some (fmt_Errorf_w err "unable to close database")),
   [EvRegisterCancel attempt; EvCreateTempDir attempt; EvOpenStorage attempt;
    EvPipeline attempt (strictPipeline defaults t ac tmpDir);
    EvRun attempt s e; EvCloseStorage attempt false; EvRemoveTempDir attempt]).
Proof.
  intros Hdir Hopen Hclose. simpl. rewrite Hdir, Hopen, Hclose. reflexivity.
Qed.

End SearchResults.

(** The ways one call can go, read off the answers of the world. *)
Ltac call_cases w attempt :=
  destruct (createTempDir (w attempt)) as [tmpDir | dirErr] eqn:Hdir;
  [ destruct (newBadgerStorage (w attempt)) as [openErr |] eqn:Hopen;
    [ | destruct (closeStorage (w attempt)) as [closeErr |] eqn:Hclose;
        [ | destruct (signalReceivedAfter (w attempt)) eqn:Hsig;
            [ | destruct (isNil (wait (w attempt)) || isCanceled (wait (w attempt)))
                  eqn:Hwait ] ] ]
  | ].

Lemma not_clean_is_genuine (err : option error) :
  isNil err || isCanceled err = false ->
  exists e, err = Some e /\ e <> context_Canceled.
Proof.
  destruct err as [e |]; [| discriminate].
  intro H. exists e. split; [reflexivity |]. intros ->. discriminate H.
Qed.

(** X4.  A search returns either a block and a nil error or no block and
    an error, never both and never neither; and the error is one of six:
    halted, unable to find, exhausted (with [newEnd <= newStart]), or the
    error of a collaborator of one of its calls wrapped with what failed. *)
Theorem X4_search_result_forms
    (defaults : ReconcilerDefaults) (t : DataTester) (w : World) (fuel : nat) :
  forall (attempt : nat) (ac : AccountCurrency) (s e : Z)
         (block : option BlockIdentifier) (err : option error),
    fst (recursiveOpSearch defaults t w fuel attempt ac s e) = Some (block, err) ->
    (exists b, block = Some b /\ err = None) \/
    (exists failure, block = None /\ err = Some failure /\ SearchError w failure).
Proof.
  induction fuel as [| fuel IH]; intros attempt ac s e block err Hres.
  - discriminate Hres.
  - call_cases w attempt.
    + rewrite (search_no_storage defaults t w fuel attempt ac tmpDir s e openErr)
        in Hres by assumption.
      injection Hres as <- <-. right. eexists. repeat split.
      apply (SearchNoStorage w attempt). exact Hopen.
    + rewrite (search_not_closed defaults t w fuel attempt ac tmpDir s e closeErr)
        in Hres by assumption.
      injection Hres as <- <-. right. eexists. repeat split.
      apply (SearchNotClosed w attempt). exact Hclose.
    + rewrite (search_halted defaults t w fuel attempt ac tmpDir s e)
        in Hres by assumption.
      injection Hres as <- <-. right. eexists. repeat split. constructor.
    + apply isNil_or_isCanceled in Hwait.
      rewrite (search_clean defaults t w fuel attempt ac tmpDir s e)
        in Hres by assumption.
      destruct (Z.leb_spec (nextEnd e) (clampedStart t s)) as [Hle | Hgt].
      * injection Hres as <- <-. right. eexists. repeat split.
        constructor. exact Hle.
      * cbv zeta in Hres. cbn [fst] in Hres. eapply IH. exact Hres.
    + destruct (not_clean_is_genuine _ Hwait) as (failure & Hw & Hgenuine).
      rewrite (search_failed defaults t w fuel attempt ac tmpDir s e failure)
        in Hres by assumption.
      destruct (activeFailureBlockAfter (w attempt)) as [b |];
        injection Hres as <- <-.
      * left. eauto.
      * right. eexists. repeat split. constructor.
    + rewrite (search_no_tempdir defaults t w fuel attempt ac s e dirErr)
        in Hres by assumption.
      injection Hres as <- <-. right. eexists. repeat split.
      apply (SearchNoTempDir w attempt). exact Hdir.
Qed.

Lemma X4_witness :
  exists failure,
    fst (recursiveOpSearch Sample.defaults
           (Sample.tester 0 false (Some 1000) (inl 7) (inl 3))
           Sample.allClean 4 0 Sample.account 750 1000)
      = Some (None, Some failure) /\
    SearchError Sample.allClean failure.
Proof.
  destruct (X4_search_result_forms Sample.defaults
              (Sample.tester 0 false (Some 1000) (inl 7) (inl 3))
              Sample.allClean 4 0 Sample.account 750 1000
              None (Some (errExhausted 0 0)) eq_refl)
    as [(b & Hb & _) | (failure & _ & Herr & Hform)].
  - discriminate Hb.
  - exists failure. split; [| exact Hform].
    rewrite <- Herr. reflexivity.
Defined.

(** X5.  A block returned by a search is the block the reconciler bound
    to an active failure in one of its calls: that call set up and closed
    its storage, saw no abort signal and ended in a genuine failure, and
    every call before it completed cleanly.  A search reports no block of
    its own making. *)
Theorem X5_found_block_was_recorded
    (defaults : ReconcilerDefaults) (t : DataTester) (w : World) (fuel : nat) :
  forall (attempt : nat) (ac : AccountCurrency) (s e : Z)
         (b : BlockIdentifier) (err : option error),
    fst (recursiveOpSearch defaults t w fuel attempt ac s e) = Some (Some b, err) ->
    exists n,
      (attempt <= n < attempt + fuel)%nat /\
      activeFailureBlockAfter (w n) = Some b /\
      reachesSignalCheck (w n) /\
      signalReceivedAfter (w n) = false /\
      (exists failure, wait (w n) = Some failure /\ failure <> context_Canceled) /\
      forall j, (attempt <= j < n)%nat -> cleanAttempt (w j).
Proof.
  induction fuel as [| fuel IH]; intros attempt ac s e b err Hres.
  - discriminate Hres.
  - call_cases w attempt.
    + rewrite (search_no_storage defaults t w fuel attempt ac tmpDir s e openErr)
        in Hres by assumption.
      discriminate Hres.
    + rewrite (search_not_closed defaults t w fuel attempt ac tmpDir s e closeErr)
        in Hres by assumption.
      discriminate Hres.
    + rewrite (search_halted defaults t w fuel attempt ac tmpDir s e)
        in Hres by assumption.
      discriminate Hres.
    + apply isNil_or_isCanceled in Hwait.
      rewrite (search_clean defaults t w fuel attempt ac tmpDir s e)
        in Hres by assumption.
      destruct (nextEnd e <=? clampedStart t s); [discriminate Hres |].
      cbv zeta in Hres. cbn [fst] in Hres.
      destruct (IH _ _ _ _ _ _ Hres)
        as (n & Hn & Hb & Hreach & Hnosig & Hfail & Hbefore).
      exists n.
      split; [lia |]. split; [exact Hb |]. split; [exact Hreach |].
      split; [exact Hnosig |]. split; [exact Hfail |].
      intros j Hj.
      destruct (Nat.eq_dec j attempt) as [-> | Hne].
      * unfold cleanAttempt. eauto 10.
      * apply Hbefore. lia.
    + destruct (not_clean_is_genuine _ Hwait) as (failure & Hw & Hgenuine).
      rewrite (search_failed defaults t w fuel attempt ac tmpDir s e failure)
        in Hres by assumption.
      destruct (activeFailureBlockAfter (w attempt)) as [b' |] eqn:Hactive;
        [| discriminate Hres].
      injection Hres as -> <-.
      exists attempt.
      split; [lia |]. split; [exact Hactive |].
      split; [unfold reachesSignalCheck; eauto |].
      split; [exact Hsig |]. split; [eauto |].
      intros j Hj. lia.
    + rewrite (search_no_tempdir defaults t w fuel attempt ac s e dirErr)
        in Hres by assumption.
      discriminate Hres.
Qed.

Lemma X5_witness :
  exists n,
    activeFailureBlockAfter
      ((fun k => match k with
                 | O => Sample.clean
                 | S _ => Sample.failing (Some {| Index := 612; Hash := "bad" |})
                 end) n) = Some {| Index := 612; Hash := "bad" |}.
Proof.
  destruct (X5_found_block_was_recorded Sample.defaults
              (Sample.tester 0 false (Some 1000) (inl 7) (inl 3))
              (fun k => match k with
                        | O => Sample.clean
                        | S _ => Sample.failing (Some {| Index := 612; Hash := "bad" |})
                        end)
              2 0 Sample.account 750 1000
              {| Index := 612; Hash := "bad" |} None eq_refl)
    as (n & _ & Hb & _).
  exists n. exact Hb.
Defined.

(** ** The windows of a search *)

Lemma wrap_small (z : Z) : Int64.in_range z -> Int64.wrap z = z.
Proof.
  unfold Int64.in_range, Int64.min, Int64.max. rewrite wrap_eq.
  change (2 ^ 63) with 9223372036854775808. intro H.
  rewrite Z.mod_small by lia. lia.
Qed.

Lemma lowered_next (k : nat) (z : Z) :
  lowered (S k) z = lowered k (Int64.sub z InactiveFailureLookbackWindow).
Proof.
  unfold lowered. rewrite Nat.iter_succ_r. reflexivity.
Qed.

(** Lowering [k + 1] times is one subtraction with one wrap-around. *)
Lemma lowered_closed_form (k : nat) (z : Z) :
  lowered (S k) z =
  Int64.wrap (z - InactiveFailureLookbackWindow * Z.of_nat (S k)).
Proof.
  induction k as [| k IH].
  - unfold lowered, Int64.sub. simpl Nat.iter. f_equal; lia.
  - change (lowered (S (S k)) z)
      with (Int64.sub (lowered (S k) z) InactiveFailureLookbackWindow).
    rewrite IH. unfold Int64.sub. rewrite wrap_sub_wrap. f_equal; lia.
Qed.

Lemma lowered_without_wrap (k : nat) (z : Z) :
  Int64.in_range z ->
  Int64.min <= z - InactiveFailureLookbackWindow * Z.of_nat k ->
  lowered k z = z - InactiveFailureLookbackWindow * Z.of_nat k.
Proof.
  intros Hz Hlow. destruct k as [| k].
  - unfold lowered. simpl. lia.
  - rewrite lowered_closed_form. apply wrap_small.
    unfold Int64.in_range, InactiveFailureLookbackWindow in *. lia.
Qed.

(** X6.  Every window a search runs is the initial window with both ends
    lowered by the lookback window once per nested call, with [int64]
    wrap-around: the start passed on is never the clamped one.  As long as
    the start does not wrap, the width of the window stays what it was. *)
Theorem X6_windows_are_lowered
    (defaults : ReconcilerDefaults) (t : DataTester) (w : World) (fuel : nat) :
  forall (attempt : nat) (ac : AccountCurrency) (s e : Z)
         (n : nat) (s' e' : Z),
    In (EvRun n s' e')
       (snd (recursiveOpSearch defaults t w fuel attempt ac s e)) ->
    exists k,
      (k < fuel)%nat /\ n = (attempt + k)%nat /\
      s' = lowered k s /\ e' = lowered k e /\
      (Int64.in_range s -> Int64.in_range e -> s <= e ->
       Int64.min <= s - InactiveFailureLookbackWindow * Z.of_nat k ->
       s' = s - InactiveFailureLookbackWindow * Z.of_nat k /\
       e' = e - InactiveFailureLookbackWindow * Z.of_nat k /\
       e' - s' = e - s).
Proof.
  assert (Hwidth : forall k s e,
             Int64.in_range s -> Int64.in_range e -> s <= e ->
             Int64.min <= s - InactiveFailureLookbackWindow * Z.of_nat k ->
             lowered k s = s - InactiveFailureLookbackWindow * Z.of_nat k /\
             lowered k e = e - InactiveFailureLookbackWindow * Z.of_nat k /\
             lowered k e - lowered k s = e - s).
  { intros k s e Hs He Hle Hlow.
    rewrite (lowered_without_wrap k s Hs Hlow).
    rewrite (lowered_without_wrap k e He) by lia. lia. }
  assert (Hmain : forall (attempt : nat) (ac : AccountCurrency) (s e : Z)
                         (n : nat) (s' e' : Z),
             In (EvRun n s' e')
                (snd (recursiveOpSearch defaults t w fuel attempt ac s e)) ->
             exists k, (k < fuel)%nat /\ n = (attempt + k)%nat /\
                       s' = lowered k s /\ e' = lowered k e).
  { induction fuel as [| fuel IH]; intros attempt ac s e n s' e'.
    - simpl. contradiction.
    - destruct (search_shape defaults t w fuel attempt ac s e)
        as [[r H] | [[r H] | [(r & tmpDir & closed & H) | (tmpDir & line & H)]]];
        cbv zeta in H; rewrite H; clear H; cbn [snd].
      + simpl. intros [Hin | []]. discriminate Hin.
      + simpl. intros [Hin | [Hin | [Hin | []]]]; discriminate Hin.
      + simpl. intro Hin.
        repeat (destruct Hin as [Hin | Hin]; try discriminate Hin);
          try contradiction.
        injection Hin as <- <- <-.
        exists 0%nat. repeat split; lia.
      + specialize (IH (S attempt) ac
                      (Int64.sub s InactiveFailureLookbackWindow)
                      (Int64.sub e InactiveFailureLookbackWindow) n s' e').
        destruct (recursiveOpSearch defaults t w fuel (S attempt) ac _ _)
          as [res evs].
        cbn [fst snd] in *. unfold ranAndClosed. intro Hin.
        rewrite !in_app_iff in Hin.
        destruct Hin as [Hin | [Hin | [Hin | Hin]]].
        * simpl in Hin.
          repeat (destruct Hin as [Hin | Hin]; try discriminate Hin);
            try contradiction.
          injection Hin as <- <- <-.
          exists 0%nat. repeat split; lia.
        * simpl in Hin. destruct Hin as [Hin | []]. discriminate Hin.
        * destruct (IH Hin) as (k & Hk & -> & -> & ->).
          exists (S k). rewrite !lowered_next. repeat split; lia.
        * destruct res; simpl in Hin; [| contradiction].
          destruct Hin as [Hin | []]. discriminate Hin. }
  intros attempt ac s e n s' e' Hin.
  destruct (Hmain attempt ac s e n s' e' Hin) as (k & Hk & Hn & Hs & He).
  exists k. split; [exact Hk |]. split; [exact Hn |].
  split; [exact Hs |]. split; [exact He |].
  intros Hrs Hre Hle Hlow. rewrite Hs, He. apply Hwidth; assumption.
Qed.

Lemma X6_witness :
  exists k, (2 = 0 + k)%nat /\ 250 = lowered k 750 /\ 500 = lowered k 1000.
Proof.
  destruct (X6_windows_are_lowered Sample.defaults
              (Sample.tester 0 false (Some 1000) (inl 7) (inl 3))
              Sample.allClean 4 0 Sample.account 750 1000 2 250 500)
    as (k & _ & Hn & Hs & He & _).
  - simpl. auto 20.
  - exists k. auto.
Defined.

(** ** An abort signal in the middle of a search *)

(** X7.  If the calls of a search complete cleanly until one finds the
    abort signal raised (after setting up and closing its storage), the
    search returns an error and no block, and that error is the halted one
    unless the search space was exhausted before the signal was seen. *)
Theorem X7_search_halts_at_first_signal
    (defaults : ReconcilerDefaults) (t : DataTester) (w : World)
    (ac : AccountCurrency) (k : nat) :
  forall (fuel attempt : nat) (s e : Z),
    (forall j, (j < k)%nat -> cleanAttempt (w (attempt + j)%nat)) ->
    reachesSignalCheck (w (attempt + k)%nat) ->
    signalReceivedAfter (w (attempt + k)%nat) = true ->
    fst (recursiveOpSearch defaults t w (S k + fuel) attempt ac s e) =
      Some (None, Some errHalted) \/
    exists newStart newEnd,
      newEnd <= newStart /\
      fst (recursiveOpSearch defaults t w (S k + fuel) attempt ac s e) =
        Some (None, Some (errExhausted newStart newEnd)).
Proof.
  induction k as [| k IH]; intros fuel attempt s e Hclean Hreach Hsig.
  - left. rewrite Nat.add_0_r in *.
    destruct Hreach as ([tmpDir Hdir] & Hopen & Hclose).
    cbn [Nat.add].
    rewrite (search_halted defaults t w fuel attempt ac tmpDir s e)
      by assumption.
    reflexivity.
  - destruct (Hclean 0%nat ltac:(lia))
      as ([tmpDir Hdir] & Hopen & Hclose & Hnosig & Hwait).
    rewrite Nat.add_0_r in *.
    change (S (S k) + fuel)%nat with (S (S k + fuel)).
    rewrite (search_clean defaults t w (S k + fuel) attempt ac tmpDir s e)
      by assumption.
    destruct (Z.leb_spec (nextEnd e) (clampedStart t s)) as [Hle | Hgt].
    + right. eauto.
    + cbv zeta. cbn [fst].
      apply IH.
      * intros j Hj. replace (S attempt + j)%nat with (attempt + S j)%nat by lia.
        apply Hclean. lia.
      * replace (S attempt + k)%nat with (attempt + S k)%nat by lia. exact Hreach.
      * replace (S attempt + k)%nat with (attempt + S k)%nat by lia. exact Hsig.
Qed.

Lemma X7_witness :
  fst (recursiveOpSearch Sample.defaults
         (Sample.tester 0 false (Some 1000) (inl 7) (inl 3))
         (fun n => match n with
                   | 0%nat | 1%nat => Sample.clean
                   | _ => Sample.interrupted
                   end)
         3 0 Sample.account 750 1000) = Some (None, Some errHalted).
Proof.
  destruct (X7_search_halts_at_first_signal Sample.defaults
              (Sample.tester 0 false (Some 1000) (inl 7) (inl 3))
              (fun n => match n with
                        | 0%nat | 1%nat => Sample.clean
                        | _ => Sample.interrupted
                        end)
              Sample.account 2 0 0 750 1000) as [H | (ns & ne & _ & H)].
  - intros j Hj. destruct j as [| [| j]]; [| | lia];
      (repeat split; [exists "/tmp/search"%string; reflexivity | right; reflexivity]).
  - repeat split. exists "/tmp/search"%string. reflexivity.
  - reflexivity.
  - exact H.
  - discriminate H.
Defined.

(** ** How long a search runs *)

Lemma search_settled
    (defaults : ReconcilerDefaults) (t : DataTester) (w : World)
    (fuel attempt : nat) (ac : AccountCurrency) (s e : Z) (r : SearchResult) :
  fst (recursiveOpSearch defaults t w fuel attempt ac s e) = Some r ->
  forall extra,
    recursiveOpSearch defaults t w (extra + fuel) attempt ac s e =
    recursiveOpSearch defaults t w fuel attempt ac s e.
Proof.
  intros Hr extra. induction extra as [| extra IH].
  - reflexivity.
  - cbn [Nat.add].
    rewrite (search_more_fuel defaults t w (extra + fuel) attempt ac s e r).
    + exact IH.
    + rewrite IH. exact Hr.
Qed.

Lemma registeredCancels_app (l1 l2 : list Event) :
  registeredCancels (l1 ++ l2) = registeredCancels l1 ++ registeredCancels l2.
Proof.
  unfold registeredCancels. apply flat_map_app.
Qed.

(** A search runs one window per call at most, and makes no more calls
    than the model was given fuel for. *)
Lemma search_calls
    (defaults : ReconcilerDefaults) (t : DataTester) (w : World) (fuel : nat) :
  forall (attempt : nat) (ac : AccountCurrency) (s e : Z),
    exists k,
      (k <= fuel)%nat /\
      registeredCancels (snd (recursiveOpSearch defaults t w fuel attempt ac s e))
        = seq attempt k /\
      (List.length
         (windowsRun (snd (recursiveOpSearch defaults t w fuel attempt ac s e)))
       <= k)%nat.
Proof.
  induction fuel as [| fuel IH]; intros attempt ac s e.
  - exists 0%nat. simpl. repeat split; lia.
  - destruct (search_shape defaults t w fuel attempt ac s e)
      as [[r H] | [[r H] | [(r & tmpDir & closed & H) | (tmpDir & line & H)]]];
      cbv zeta in H; rewrite H; clear H; cbn [snd].
    + exists 1%nat. simpl. repeat split; lia.
    + exists 1%nat. simpl. repeat split; lia.
    + exists 1%nat. simpl. repeat split; lia.
    + destruct (IH (S attempt) ac
                  (Int64.sub s InactiveFailureLookbackWindow)
                  (Int64.sub e InactiveFailureLookbackWindow))
        as (k & Hk & Hreg & Hwin).
      destruct (recursiveOpSearch defaults t w fuel (S attempt) ac _ _)
        as [res evs].
      cbn [fst snd] in *. exists (S k).
      rewrite !registeredCancels_app, !windowsRun_app, Hreg.
      rewrite !length_app.
      split; [lia |]. split.
      * destruct res; simpl; rewrite ?app_nil_r; reflexivity.
      * destruct res; simpl; lia.
Qed.

(** X8.  With a genesis index that is not negative and an end index at or
    above it, a search whose windows all complete cleanly is exhausted
    within [(endIndex - genesis) / 250 + 1] calls, and runs no more windows
    than that however long it is followed. *)
Theorem X8_clean_search_attempts_bounded
    (defaults : ReconcilerDefaults) (t : DataTester) (w : World)
    (ac : AccountCurrency) (attempt : nat) (s e : Z) :
  (forall k, cleanAttempt (w k)) ->
  0 <= Index (genesisBlock t) ->
  Index (genesisBlock t) <= e <= Int64.max ->
  let bound :=
    S (Z.to_nat ((e - Index (genesisBlock t)) / InactiveFailureLookbackWindow)) in
  (exists newStart newEnd,
     fst (recursiveOpSearch defaults t w bound attempt ac s e) =
       Some (None, Some (errExhausted newStart newEnd)) /\
     newEnd <= newStart) /\
  forall fuel,
    (List.length
       (windowsRun (snd (recursiveOpSearch defaults t w fuel attempt ac s e)))
     <= bound)%nat.
Proof.
  intros Hclean Hgenesis He. cbv zeta.
  set (g := Index (genesisBlock t)) in *.
  set (n := Z.to_nat ((e - g) / InactiveFailureLookbackWindow)).
  assert (Hexhausted :
            exists newStart newEnd,
              fst (recursiveOpSearch defaults t w (S n) attempt ac s e) =
                Some (None, Some (errExhausted newStart newEnd)) /\
              newEnd <= newStart).
  { apply (clean_exhausts_within defaults t w ac Hclean).
    fold g. unfold n, InactiveFailureLookbackWindow, Int64.max in *.
    change (2 ^ 63 - 1) with 9223372036854775807 in He.
    pose proof (Z.div_mod (e - g) 250 ltac:(lia)) as Hdm.
    pose proof (Z.mod_pos_bound (e - g) 250 ltac:(lia)) as Hb.
    assert (Hq : 0 <= (e - g) / 250) by (apply Z.div_pos; lia).
    rewrite Nat2Z.inj_succ, Z2Nat.id by exact Hq.
    rewrite wrap_small.
    - lia.
    - unfold Int64.in_range, Int64.min, Int64.max.
      change (2 ^ 63) with 9223372036854775808. lia. }
  split; [exact Hexhausted |].
  intro fuel.
  destruct Hexhausted as (newStart & newEnd & Hres & _).
  destruct (Nat.le_gt_cases fuel (S n)) as [Hle | Hgt].
  - destruct (search_calls defaults t w fuel attempt ac s e) as (k & Hk & _ & Hwin).
    lia.
  - replace fuel with ((fuel - S n) + S n)%nat by lia.
    rewrite (search_settled defaults t w (S n) attempt ac s e _ Hres).
    destruct (search_calls defaults t w (S n) attempt ac s e) as (k & Hk & _ & Hwin).
    lia.
Qed.

Lemma X8_witness :
  le (List.length
        (windowsRun
           (snd (recursiveOpSearch Sample.defaults
                   (Sample.tester 0 false (Some 1000) (inl 7) (inl 3))
                   Sample.allClean 50 0 Sample.account 750 1000))))
     5%nat.
Proof.
  apply (X8_clean_search_attempts_bounded Sample.defaults
           (Sample.tester 0 false (Some 1000) (inl 7) (inl 3))
           Sample.allClean Sample.account 0 750 1000).
  - intro k. repeat split.
    + exists "/tmp/search"%string. reflexivity.
    + right. reflexivity.
  - simpl. lia.
  - simpl. unfold Int64.max. lia.
Defined.

(** X9.  Each call of a search registers one cancel function before it
    does anything else, and the registry only grows: the calls that
    registered one are the consecutive calls of the search, and there are
    at least as many of them as windows run. *)
Theorem X9_one_cancel_function_per_call
    (defaults : ReconcilerDefaults) (t : DataTester) (w : World)
    (fuel attempt : nat) (ac : AccountCurrency) (s e : Z) :
  let run := recursiveOpSearch defaults t w fuel attempt ac s e in
  exists calls,
    registeredCancels (snd run) = seq attempt calls /\
    (List.length (windowsRun (snd run)) <= calls <= fuel)%nat /\
    (forall r, fst run = Some r -> (1 <= calls)%nat /\
       exists rest, snd run = EvRegisterCancel attempt :: rest).
Proof.
  cbv zeta.
  destruct (search_calls defaults t w fuel attempt ac s e) as (k & Hk & Hreg & Hwin).
  exists k. split; [exact Hreg |]. split; [lia |].
  intros r Hr. destruct fuel as [| fuel]; [discriminate Hr |].
  destruct (search_shape defaults t w fuel attempt ac s e)
    as [[r' H] | [[r' H] | [(r' & tmpDir & closed & H) | (tmpDir & line & H)]]];
    cbv zeta in H; rewrite H in Hreg |- *; cbn [snd] in *.
  - destruct k; [discriminate Hreg |]. split; [lia | eauto].
  - destruct k; [discriminate Hreg |]. split; [lia | eauto].
  - destruct k; [discriminate Hreg |]. split; [lia | eauto].
  - unfold ranAndClosed in *. cbn [app] in *.
    destruct k; [discriminate Hreg |]. split; [lia | eauto].
Qed.

(** ** FindMissingOps *)

Lemma search_returns_block_or_error
    (defaults : ReconcilerDefaults) (t : DataTester) (w : World) (fuel : nat) :
  forall (attempt : nat) (ac : AccountCurrency) (s e : Z),
    fst (recursiveOpSearch defaults t w fuel attempt ac s e) <> Some (None, None).
Proof.
  induction fuel as [| fuel IH]; intros attempt ac s e Hres.
  - discriminate Hres.
  - call_cases w attempt.
    + rewrite (search_no_storage defaults t w fuel attempt ac tmpDir s e openErr)
        in Hres by assumption.
      discriminate Hres.
    + rewrite (search_not_closed defaults t w fuel attempt ac tmpDir s e closeErr)
        in Hres by assumption.
      discriminate Hres.
    + rewrite (search_halted defaults t w fuel attempt ac tmpDir s e)
        in Hres by assumption.
      discriminate Hres.
    + apply isNil_or_isCanceled in Hwait.
      rewrite (search_clean defaults t w fuel attempt ac tmpDir s e)
        in Hres by assumption.
      destruct (nextEnd e <=? clampedStart t s); [discriminate Hres |].
      cbv zeta in Hres. cbn [fst] in Hres. exact (IH _ _ _ _ Hres).
    + destruct (not_clean_is_genuine _ Hwait) as (failure & Hw & Hgenuine).
      rewrite (search_failed defaults t w fuel attempt ac tmpDir s e failure)
        in Hres by assumption.
      destruct (activeFailureBlockAfter (w attempt)); discriminate Hres.
    + rewrite (search_no_tempdir defaults t w fuel attempt ac s e dirErr)
        in Hres by assumption.
      discriminate Hres.
Qed.

(** X10.  The search [FindMissingOps] starts is for the account of the
    recorded inactive failure, and its first window reaches from 250 blocks
    below the block of that failure up to that block.  The start of this
    window is not clamped: for a failure seen less than 250 blocks above
    the genesis index it lies below the genesis index. *)
Theorem X10_FindMissingOps_first_window
    (defaults : ReconcilerDefaults) (t : DataTester) (w : World)
    (types_AccountString : AccountIdentifier -> string) (fuel : nat)
    (failure : AccountCurrency) (block : BlockIdentifier) :
  InactiveFailure (reconcilerHandler t) = Some failure ->
  InactiveFailureBlock (reconcilerHandler t) = Some block ->
  (exists tmpDir, createTempDir (w 0%nat) = inl tmpDir) ->
  newBadgerStorage (w 0%nat) = None ->
  (exists rest,
     windowsRun (snd (FindMissingOps defaults t w types_AccountString (S fuel))) =
     (Int64.sub (Index block) InactiveFailureLookbackWindow, Index block) :: rest) /\
  (forall n p,
     In (EvPipeline n p)
        (snd (FindMissingOps defaults t w types_AccountString (S fuel))) ->
     interestingAccounts (p_reconciler p) = [failure]) /\
  (Int64.in_range (Index block) ->
   Int64.min + InactiveFailureLookbackWindow <= Index block ->
   Int64.sub (Index block) InactiveFailureLookbackWindow =
   Index block - InactiveFailureLookbackWindow).
Proof.
  intros Hfailure Hblock [tmpDir Hdir] Hopen.
  set (s := Int64.sub (Index block) InactiveFailureLookbackWindow).
  assert (Hevents :
            snd (FindMissingOps defaults t w types_AccountString (S fuel)) =
            EvPrint (Red, "Searching for block with missing operations...hold tight"%string)
            :: snd (recursiveOpSearch defaults t w (S fuel) 0 failure s (Index block))).
  { unfold FindMissingOps. rewrite Hfailure, Hblock. fold s.
    destruct (recursiveOpSearch defaults t w (S fuel) 0 failure s (Index block))
      as [[[[b |] [err |]] |] evs]; reflexivity. }
  rewrite Hevents. split; [| split].
  - assert (Hfirst : exists rest,
               windowsRun (snd (recursiveOpSearch defaults t w (S fuel) 0
                                  failure s (Index block))) =
               (s, Index block) :: rest).
    { destruct (closeStorage (w 0%nat)) as [closeErr |] eqn:Hclose.
      { rewrite (search_not_closed defaults t w fuel 0 failure tmpDir s
                   (Index block) closeErr) by assumption.
        eexists. reflexivity. }
      destruct (signalReceivedAfter (w 0%nat)) eqn:Hsig.
      { rewrite (search_halted defaults t w fuel 0 failure tmpDir s (Index block))
          by assumption.
        eexists. reflexivity. }
      destruct (isNil (wait (w 0%nat)) || isCanceled (wait (w 0%nat))) eqn:Hwait.
      - apply isNil_or_isCanceled in Hwait.
        rewrite (search_clean defaults t w fuel 0 failure tmpDir s (Index block))
          by assumption.
        destruct (nextEnd (Index block) <=? clampedStart t s); cbv zeta; cbn [snd];
          rewrite ?windowsRun_app; cbn [ranAndClosed windowsRun flat_map app];
          eexists; reflexivity.
      - destruct (not_clean_is_genuine _ Hwait) as (e & Hw & Hgenuine).
        rewrite (search_failed defaults t w fuel 0 failure tmpDir s (Index block) e)
          by assumption.
        eexists. reflexivity. }
    destruct Hfirst as [rest Hrest]. exists rest.
    unfold windowsRun in *. cbn [flat_map app]. exact Hrest.
  - intros n p [Hin | Hin]; [discriminate Hin |].
    destruct (search_pipelines defaults t w (S fuel) 0 failure s (Index block)
                n p Hin) as [dir ->].
    reflexivity.
  - intros Hrange Hlow. unfold s, Int64.sub. apply wrap_small.
    unfold Int64.in_range, InactiveFailureLookbackWindow, Int64.max in *. lia.
Qed.

Lemma X10_witness :
  exists rest,
    windowsRun
      (snd (FindMissingOps Sample.defaults
              (Sample.tester 0 false (Some 100) (inl 7) (inl 3))
              Sample.allClean Sample.accountString 1)) =
    (Int64.sub 100 InactiveFailureLookbackWindow, 100) :: rest.
Proof.
  apply (X10_FindMissingOps_first_window Sample.defaults
           (Sample.tester 0 false (Some 100) (inl 7) (inl 3))
           Sample.allClean Sample.accountString 0
           Sample.account {| Index := 100; Hash := "h" |}).
  - reflexivity.
  - reflexivity.
  - exists "/tmp/search"%string. reflexivity.
  - reflexivity.
Defined.

(** X11.  Whenever its search returns, [FindMissingOps] prints two red
    lines before it ends the process: the notice that the search has
    started and then, if the search returned an error, the message of that
    error followed by ": could not find block with missing ops", and
    otherwise the account together with the index and hash of the block
    the search returned. *)
Theorem X11_FindMissingOps_reports
    (defaults : ReconcilerDefaults) (t : DataTester) (w : World)
    (types_AccountString : AccountIdentifier -> string) (fuel : nat)
    (failure : AccountCurrency) (block : BlockIdentifier) (r : SearchResult) :
  InactiveFailure (reconcilerHandler t) = Some failure ->
  InactiveFailureBlock (reconcilerHandler t) = Some block ->
  fst (recursiveOpSearch defaults t w fuel 0 failure
         (Int64.sub (Index block) InactiveFailureLookbackWindow) (Index block))
    = Some r ->
  exists line,
    fst (FindMissingOps defaults t w types_AccountString fuel) =
      Some [ (Red, "Searching for block with missing operations...hold tight"%string);
             (Red, line) ] /\
    (forall err, snd r = Some err ->
       line = (Error err ++ ": could not find block with missing ops")%string) /\
    (snd r = None ->
     exists badBlock,
       fst r = Some badBlock /\
       line = ("Missing ops for " ++ types_AccountString (Account failure) ++
               " in block " ++ fmt_d (Index badBlock) ++ ":" ++
               Hash badBlock)%string).
Proof.
  intros Hfailure Hblock Hres.
  pose proof (search_returns_block_or_error defaults t w fuel 0 failure
                (Int64.sub (Index block) InactiveFailureLookbackWindow)
                (Index block)) as Hsome.
  unfold FindMissingOps. rewrite Hfailure, Hblock.
  destruct (recursiveOpSearch defaults t w fuel 0 failure _ _) as [res evs].
  cbn [fst] in *. subst res.
  destruct r as [[badBlock |] [err |]]; cbn [fst snd].
  - eexists. split; [reflexivity |]. split.
    + intros err' H. injection H as <-. reflexivity.
    + discriminate.
  - eexists. split; [reflexivity |]. split.
    + discriminate.
    + intros _. exists badBlock. split; reflexivity.
  - eexists. split; [reflexivity |]. split.
    + intros err' H. injection H as <-. reflexivity.
    + discriminate.
  - contradiction Hsome. reflexivity.
Qed.

Lemma X11_witness :
  fst (FindMissingOps Sample.defaults
         (Sample.tester 0 false (Some 1000) (inl 7) (inl 3))
         (fun _ => Sample.failing (Some {| Index := 812; Hash := "bad" |}))
         Sample.accountString 1) =
  Some [ (Red, "Searching for block with missing operations...hold tight"%string);
         (Red, "Missing ops for addr1 in block 812:bad"%string) ].
Proof.
  destruct (X11_FindMissingOps_reports Sample.defaults
              (Sample.tester 0 false (Some 1000) (inl 7) (inl 3))
              (fun _ => Sample.failing (Some {| Index := 812; Hash := "bad" |}))
              Sample.accountString 1
              Sample.account {| Index := 1000; Hash := "h" |}
              (Some {| Index := 812; Hash := "bad" |}, None)
              eq_refl eq_refl eq_refl) as (line & Hlines & _ & Hfound).
  destruct (Hfound eq_refl) as (badBlock & Hb & Hline).
  injection Hb as <-. rewrite Hlines, Hline. reflexivity.
Defined.

(** ** InitializeData, step by step *)

Lemma length_zero_empty (s : string) :
  (String.length s =? 0)%nat = true <-> s = EmptyString.
Proof.
  destruct s; simpl; split; intro H; try reflexivity; discriminate H.
Qed.

Section InitializeRuns.

Variable defaults : ReconcilerDefaults.
Variable types_Hash : NetworkIdentifier -> string.
Variable path_Join : list string -> string.
Variable types_PrettyPrintStruct : list AccountCurrency -> string.
Variable iw : InitWorld.

(** What [loadAccounts] returned, read backwards. *)
Lemma loadAccounts_returned (filePath : string) (l : list AccountCurrency) :
  snd (loadAccounts types_PrettyPrintStruct iw filePath) = inr (inl l) ->
  (filePath = EmptyString /\ l = []) \/
  (filePath <> EmptyString /\ loadAndParse iw filePath = inl l).
Proof.
  unfold loadAccounts.
  destruct (String.length filePath =? 0)%nat eqn:Hlen.
  - apply length_zero_empty in Hlen. simpl. intro H. injection H as <-. auto.
  - assert (Hne : filePath <> EmptyString).
    { intro H. apply length_zero_empty in H. congruence. }
    destruct (loadAndParse iw filePath) as [accounts | err]; simpl; intro H.
    + injection H as <-. auto.
    + discriminate H.
Qed.

Lemma loadAccounts_failed (filePath : string) (err : error) :
  filePath <> EmptyString ->
  loadAndParse iw filePath = inr err ->
  loadAccounts types_PrettyPrintStruct iw filePath =
  ([], inr (inr (fmt_Errorf_w err "unable to open account file"))).
Proof.
  intros Hne Hload. unfold loadAccounts.
  destruct (String.length filePath =? 0)%nat eqn:Hlen.
  - apply length_zero_empty in Hlen. contradiction.
  - rewrite Hload. reflexivity.
Qed.

Lemma bootstrap_not_configured (config : Configuration)
    (genesis : BlockIdentifier) (finish : Init (option DataTester)) :
  BootstrapBalances (Data config) = EmptyString ->
  bootstrapIfProvided iw config genesis finish = finish.
Proof.
  intro H. unfold bootstrapIfProvided. rewrite H. reflexivity.
Qed.

Lemma bootstrap_on_fresh_store (config : Configuration)
    (genesis : BlockIdentifier) (tester : option DataTester) :
  (0 < String.length (BootstrapBalances (Data config)))%nat ->
  getHeadBlockIdentifier iw = inr storage_ErrHeadBlockNotFound ->
  bootstrapIfProvided iw config genesis (iret tester) =
  match bootstrapBalances iw (BootstrapBalances (Data config)) genesis with
  | None =>
    ([IEBootstrapBalances (BootstrapBalances (Data config)) genesis], inr tester)
  | Some err =>
    ([IEBootstrapBalances (BootstrapBalances (Data config)) genesis],
     inl (Error err ++ ": unable to bootstrap balances")%string)
  end.
Proof.
  intros Hlen Hhead. unfold bootstrapIfProvided.
  apply Nat.ltb_lt in Hlen. rewrite Hlen, Hhead. simpl.
  destruct (bootstrapBalances iw _ genesis); reflexivity.
Qed.

Lemma bootstrap_on_lookup_error (config : Configuration)
    (genesis : BlockIdentifier) (finish : Init (option DataTester))
    (err : error) :
  (0 < String.length (BootstrapBalances (Data config)))%nat ->
  getHeadBlockIdentifier iw = inr err ->
  err <> storage_ErrHeadBlockNotFound ->
  bootstrapIfProvided iw config genesis finish =
  ([IEPrint msgSkippingBootstrap], inr None).
Proof.
  intros Hlen Hhead Hne. unfold bootstrapIfProvided.
  apply Nat.ltb_lt in Hlen. rewrite Hlen, Hhead.
  destruct err; try reflexivity. contradiction Hne. reflexivity.
Qed.

Lemma bootstrap_event_kinds (config : Configuration)
    (genesis : BlockIdentifier) (tester : option DataTester) (ev : InitEvent) :
  In ev (fst (bootstrapIfProvided iw config genesis (iret tester))) ->
  (exists msg, ev = IEPrint msg) \/ (exists file g, ev = IEBootstrapBalances file g).
Proof.
  unfold bootstrapIfProvided.
  destruct (0 <? String.length (BootstrapBalances (Data config)))%nat;
    [| simpl; contradiction].
  destruct (isHeadBlockNotFound _).
  - destruct (bootstrapBalances iw _ genesis); simpl;
      intros [<- | []]; right; eauto.
  - simpl. intros [<- | []]. left. eauto.
Qed.

Variable config0 : Configuration.
Variable network0 : NetworkIdentifier.
Variable fetcher0 : Fetcher.
Variable genesis : BlockIdentifier.
Variable reconcile0 : bool.
Variable interestingAccount : option AccountCurrency.

Lemma events_before_bootstrap (l1 l2 l3 : list InitEvent) (a : InitEvent) :
  l1 ++ l2 ++ a :: l3 = (l1 ++ l2 ++ [a]) ++ l3.
Proof.
  rewrite <- !app_assoc. reflexivity.
Qed.

(** With its collaborators answering, the body runs down to the bootstrap
    step, whose continuation returns a tester made of the arguments. *)
Lemma initializeBody_run (dataPath : string) :
  accountsLoad iw (ExemptAccounts (Data config0)) ->
  accountsLoad iw (InterestingAccounts (Data config0)) ->
  (exists seen, getAllAccountCurrency iw = inl seen) ->
  exists evs tester,
    initializeBody defaults types_PrettyPrintStruct iw config0 network0
      fetcher0 genesis reconcile0 interestingAccount dataPath =
    (evs ++ fst (bootstrapIfProvided iw config0 genesis (iret (Some tester))),
     snd (bootstrapIfProvided iw config0 genesis (iret (Some tester)))) /\
    (forall ev, In ev evs ->
       (exists msg, ev = IEPrint msg) \/
       (exists helper handler, ev = IEBalanceInitialize helper handler)) /\
    network tester = network0 /\
    config tester = config0 /\
    fetcher tester = fetcher0 /\
    reconcile tester = reconcile0 /\
    genesisBlock tester = genesis.
Proof.
  intros Hexempt Hinteresting [seen Hseen].
  destruct (loadAccounts_ok types_PrettyPrintStruct iw _ Hexempt)
    as (evs1 & exempt & H1).
  destruct (loadAccounts_ok types_PrettyPrintStruct iw _ Hinteresting)
    as (evs2 & interesting & H2).
  assert (Hevs1 : forall ev, In ev evs1 -> exists msg, ev = IEPrint msg).
  { intros ev Hin.
    apply (loadAccounts_events types_PrettyPrintStruct iw
             (ExemptAccounts (Data config0))).
    rewrite H1. exact Hin. }
  assert (Hevs2 : forall ev, In ev evs2 -> exists msg, ev = IEPrint msg).
  { intros ev Hin.
    apply (loadAccounts_events types_PrettyPrintStruct iw
             (InterestingAccounts (Data config0))).
    rewrite H2. exact Hin. }
  unfold initializeBody. cbv zeta.
  rewrite H1, H2, Hseen.
  erewrite (ibind_ok (evs1, _)) by reflexivity.
  cbn [fst snd orFatal].
  erewrite (ibind_ok (iret exempt)) by reflexivity.
  erewrite (ibind_ok (evs2, _)) by reflexivity.
  cbn [fst snd orFatal].
  erewrite (ibind_ok (iret interesting)) by reflexivity.
  erewrite (ibind_ok (iret seen)) by reflexivity.
  erewrite (ibind_ok (emit _)) by reflexivity.
  cbn [fst snd iret emit app].
  match goal with
  | |- context [bootstrapIfProvided iw config0 genesis (iret (Some ?T))] =>
    set (tester := T)
  end.
  match goal with
  | |- context [IEBalanceInitialize ?h ?hd] =>
    exists (evs1 ++ evs2 ++ [IEBalanceInitialize h hd])
  end.
  exists tester. split; [| split].
  - f_equal. apply events_before_bootstrap.
  - intros ev Hin. rewrite !in_app_iff in Hin.
    destruct Hin as [Hin | [Hin | [<- | []]]]; [left; auto | left; auto |].
    right. eauto.
  - repeat split.
Qed.

(** The whole function with its collaborators answering: the storage is
    opened, the body runs, and the deferred [Close] follows unless the
    bootstrap step ended the process. *)
Lemma InitializeData_run :
  let dataPath :=
    path_Join [DataDirectory (Data config0); "data"%string; types_Hash network0] in
  reachesBootstrap iw config0 dataPath ->
  exists evs tester,
    InitializeData defaults types_Hash path_Join types_PrettyPrintStruct iw
      config0 network0 fetcher0 genesis reconcile0 interestingAccount =
    match snd (bootstrapIfProvided iw config0 genesis (iret (Some tester))) with
    | inl msg =>
      (IEOpen dataPath :: evs ++
       fst (bootstrapIfProvided iw config0 genesis (iret (Some tester))),
       InitFatal msg)
    | inr r =>
      (IEOpen dataPath :: evs ++
       fst (bootstrapIfProvided iw config0 genesis (iret (Some tester))) ++
       [IEClose dataPath],
       InitReturn r)
    end /\
    (forall ev, In ev evs ->
       (exists msg, ev = IEPrint msg) \/
       (exists helper handler, ev = IEBalanceInitialize helper handler)) /\
    network tester = network0 /\
    config tester = config0 /\
    fetcher tester = fetcher0 /\
    reconcile tester = reconcile0 /\
    genesisBlock tester = genesis.
Proof.
  cbv zeta. intros (Hpath & Hstore & Hexempt & Hinteresting & Hseen).
  destruct (initializeBody_run
              (path_Join [DataDirectory (Data config0); "data"%string;
                          types_Hash network0])
              Hexempt Hinteresting Hseen)
    as (evs & tester & Hbody & Hrest).
  exists evs, tester. split; [| exact Hrest].
  unfold InitializeData. cbv zeta.
  rewrite Hpath, Hstore, Hbody. simpl.
  destruct (snd (bootstrapIfProvided iw config0 genesis (iret (Some tester)))).
  - reflexivity.
  - rewrite <- app_assoc. reflexivity.
Qed.

(** No step of the body opens or closes a storage. *)
Lemma initializeBody_event_kinds (dataPath : string) (ev : InitEvent) :
  In ev (fst (initializeBody defaults types_PrettyPrintStruct iw config0 network0
                fetcher0 genesis reconcile0 interestingAccount dataPath)) ->
  (forall p, ev <> IEOpen p) /\ (forall p, ev <> IEClose p).
Proof.
  unfold initializeBody. cbv zeta. intro H.
  apply ibind_events in H. destruct H as [H | (r1 & _ & H)].
  { apply loadAccounts_events in H. destruct H as [msg ->].
    split; discriminate. }
  apply ibind_events in H. destruct H as [H | (exempt & _ & H)].
  { rewrite orFatal_events in H. contradiction. }
  apply ibind_events in H. destruct H as [H | (r2 & _ & H)].
  { apply loadAccounts_events in H. destruct H as [msg ->].
    split; discriminate. }
  apply ibind_events in H. destruct H as [H | (interesting & _ & H)].
  { rewrite orFatal_events in H. contradiction. }
  apply ibind_events in H. destruct H as [H | (seen & _ & H)].
  { rewrite orFatal_events in H. contradiction. }
  apply ibind_events in H. destruct H as [H | (u & _ & H)].
  { simpl in H. destruct H as [<- | []]. split; discriminate. }
  apply bootstrap_event_kinds in H.
  destruct H as [[msg ->] | (file & g & ->)]; split; discriminate.
Qed.

End InitializeRuns.

(** ** InitializeData, as a whole *)

Lemma string_append_assoc (a b c : string) :
  ((a ++ b) ++ c = a ++ (b ++ c))%string.
Proof.
  induction a as [| ch a IH]; simpl.
  - reflexivity.
  - rewrite IH. reflexivity.
Qed.

Section InitializeProperties.

Variable defaults : ReconcilerDefaults.
Variable types_Hash : NetworkIdentifier -> string.
Variable path_Join : list string -> string.
Variable types_PrettyPrintStruct : list AccountCurrency -> string.
Variable iw : InitWorld.
Variable config0 : Configuration.
Variable network0 : NetworkIdentifier.
Variable fetcher0 : Fetcher.
Variable genesis : BlockIdentifier.
Variable reconcile0 : bool.
Variable interestingAccount : option AccountCurrency.

Let dataPath : string :=
  path_Join [DataDirectory (Data config0); "data"%string; types_Hash network0].

Let run : list InitEvent * InitResult :=
  InitializeData defaults types_Hash path_Join types_PrettyPrintStruct iw
    config0 network0 fetcher0 genesis reconcile0 interestingAccount.

(** X12.  Without bootstrap balances in the configuration and with its
    collaborators answering, [InitializeData] returns a tester for the
    network, configuration, fetcher and genesis block it was given,
    whatever the block store holds; between opening the storage and the
    deferred [Close] it only prints and initializes the balance storage. *)
Theorem X12_InitializeData_without_bootstrap :
  BootstrapBalances (Data config0) = EmptyString ->
  reachesBootstrap iw config0 dataPath ->
  exists evs tester,
    run = (IEOpen dataPath :: evs ++ [IEClose dataPath], InitReturn (Some tester)) /\
    (forall ev, In ev evs ->
       (exists msg, ev = IEPrint msg) \/
       (exists helper handler, ev = IEBalanceInitialize helper handler)) /\
    network tester = network0 /\
    config tester = config0 /\
    fetcher tester = fetcher0 /\
    reconcile tester = reconcile0 /\
    genesisBlock tester = genesis.
Proof.
  intros Hnone Hreach.
  destruct (InitializeData_run defaults types_Hash path_Join
              types_PrettyPrintStruct iw config0 network0 fetcher0 genesis
              reconcile0 interestingAccount Hreach)
    as (evs & tester & Hrun & Hrest).
  exists evs, tester. split; [| exact Hrest].
  unfold run. rewrite Hrun.
  rewrite (bootstrap_not_configured iw config0 genesis _ Hnone).
  reflexivity.
Qed.

(** X13.  With bootstrap balances configured, no head block in the store
    and the collaborators answering, [InitializeData] bootstraps from the
    configured file at the genesis block it was given, once, as its last
    step before the deferred [Close], and returns a tester; if the
    bootstrap fails the process ends with the message of that error
    followed by ": unable to bootstrap balances" and the storage is left
    open. *)
Theorem X13_InitializeData_bootstraps_fresh_store :
  (0 < String.length (BootstrapBalances (Data config0)))%nat ->
  getHeadBlockIdentifier iw = inr storage_ErrHeadBlockNotFound ->
  reachesBootstrap iw config0 dataPath ->
  exists evs,
    (forall ev, In ev evs ->
       (exists msg, ev = IEPrint msg) \/
       (exists helper handler, ev = IEBalanceInitialize helper handler)) /\
    match bootstrapBalances iw (BootstrapBalances (Data config0)) genesis with
    | None =>
      exists tester,
        run = (IEOpen dataPath :: evs ++
               [IEBootstrapBalances (BootstrapBalances (Data config0)) genesis;
                IEClose dataPath],
               InitReturn (Some tester)) /\
        genesisBlock tester = genesis /\ config tester = config0
    | Some err =>
      run = (IEOpen dataPath :: evs ++
             [IEBootstrapBalances (BootstrapBalances (Data config0)) genesis],
             InitFatal (Error err ++ ": unable to bootstrap balances")%string)
    end.
Proof.
  intros Hlen Hhead Hreach.
  destruct (InitializeData_run defaults types_Hash path_Join
              types_PrettyPrintStruct iw config0 network0 fetcher0 genesis
              reconcile0 interestingAccount Hreach)
    as (evs & tester & Hrun & Hkinds & _ & Hconfig & _ & _ & Hgenesis).
  exists evs. split; [exact Hkinds |].
  unfold run. rewrite Hrun.
  rewrite (bootstrap_on_fresh_store iw config0 genesis _ Hlen Hhead).
  destruct (bootstrapBalances iw (BootstrapBalances (Data config0)) genesis).
  - reflexivity.
  - exists tester. repeat split; assumption.
Qed.

(** X14.  With bootstrap balances configured, any error of the head block
    lookup other than [ErrHeadBlockNotFound] is taken for a store that has
    started syncing: [InitializeData] prints that bootstrapping is skipped
    and returns nil, without bootstrapping and without reporting the
    error. *)
Theorem X14_InitializeData_lookup_error_skips (err : error) :
  (0 < String.length (BootstrapBalances (Data config0)))%nat ->
  getHeadBlockIdentifier iw = inr err ->
  err <> storage_ErrHeadBlockNotFound ->
  reachesBootstrap iw config0 dataPath ->
  exists evs,
    run = (IEOpen dataPath :: evs ++
           [IEPrint msgSkippingBootstrap; IEClose dataPath],
           InitReturn None) /\
    (forall ev, In ev evs ->
       (exists msg, ev = IEPrint msg) \/
       (exists helper handler, ev = IEBalanceInitialize helper handler)).
Proof.
  intros Hlen Hhead Hne Hreach.
  destruct (InitializeData_run defaults types_Hash path_Join
              types_PrettyPrintStruct iw config0 network0 fetcher0 genesis
              reconcile0 interestingAccount Hreach)
    as (evs & tester & Hrun & Hkinds & _).
  exists evs. split; [| exact Hkinds].
  unfold run. rewrite Hrun.
  rewrite (bootstrap_on_lookup_error iw config0 genesis _ err Hlen Hhead Hne).
  reflexivity.
Qed.

(** X15.  Whenever [InitializeData] returns, with a tester or with nil,
    it has opened the storage once, first, and closed it once, last: the
    tester handed to the caller sits on a storage that the deferred [Close]
    has already closed.  When it ends the process instead, [Close] is never
    called. *)
Theorem X15_InitializeData_closes_on_return :
  match snd run with
  | InitReturn _ =>
    exists evs,
      fst run = IEOpen dataPath :: evs ++ [IEClose dataPath] /\
      forall ev, In ev evs -> (forall p, ev <> IEOpen p) /\ (forall p, ev <> IEClose p)
  | InitFatal _ =>
    forall p, ~ In (IEClose p) (fst run)
  end.
Proof.
  unfold run, InitializeData. cbv zeta. fold dataPath.
  pose proof (initializeBody_event_kinds defaults types_PrettyPrintStruct iw
                config0 network0 fetcher0 genesis reconcile0 interestingAccount
                dataPath) as Hkinds.
  destruct (ensurePathExists iw dataPath) as [e |].
  { simpl. intros p []. }
  destruct (initBadgerStorage iw dataPath) as [e |].
  { simpl. intros p []. }
  cbn [failOn]. rewrite !(ibind_ok (iret tt) _ tt) by reflexivity.
  rewrite (ibind_ok (emit (IEOpen dataPath)) _ tt) by reflexivity.
  cbn [fst snd iret emit app].
  destruct (initializeBody defaults types_PrettyPrintStruct iw config0 network0
              fetcher0 genesis reconcile0 interestingAccount dataPath)
    as [evs [msg | tester]]; cbn [fst snd] in *.
  - intros p [Hin | Hin]; [discriminate Hin |].
    destruct (Hkinds _ Hin) as [_ Hclose]. exact (Hclose p eq_refl).
  - exists evs. split; [reflexivity | exact Hkinds].
Qed.

(** X16.  The tester [InitializeData] returns is the one its arguments
    describe: its reconciler runs with the concurrencies and the sweep
    frequency of the configuration converted to [int], logs as the
    configuration says, knows the accounts the balance storage has seen
    and the interesting accounts of the configured file (none for an empty
    path), and reports to the handler of the tester, which halts on a
    reconciliation error unless the configuration says to ignore them. *)
Theorem X16_InitializeData_tester_settings
    (evs : list InitEvent) (tester : DataTester) :
  run = (evs, InitReturn (Some tester)) ->
  network tester = network0 /\
  fetcher tester = fetcher0 /\
  reconcile tester = reconcile0 /\
  r_handler (reconciler tester) = reconcilerHandler tester /\
  haltOnReconciliationError (reconcilerHandler tester) =
    negb (IgnoreReconciliationError (Data config0)) /\
  activeConcurrency (reconciler tester) =
    Int64.wrap (ActiveReconciliationConcurrency (Data config0)) /\
  inactiveConcurrency (reconciler tester) =
    Int64.wrap (InactiveReconciliationConcurrency (Data config0)) /\
  inactiveFrequency (reconciler tester) =
    Int64.wrap (InactiveReconciliationFrequency (Data config0)) /\
  debugLogging (reconciler tester) = LogReconciliations (Data config0) /\
  getAllAccountCurrency iw = inl (seenAccounts (reconciler tester)) /\
  (InterestingAccounts (Data config0) = EmptyString ->
   interestingAccounts (reconciler tester) = []) /\
  (InterestingAccounts (Data config0) <> EmptyString ->
   loadAndParse iw (InterestingAccounts (Data config0)) =
   inl (interestingAccounts (reconciler tester))).
Proof.
  unfold run, InitializeData. cbv zeta. fold dataPath.
  intro Hrun.
  match type of Hrun with
  | match ?m with _ => _ end = _ => destruct m as [evs' [msg | tester']] eqn:Hm
  end; [discriminate |].
  injection Hrun as _ ->.
  assert (Hsnd : snd (evs', @inr string _ (Some tester)) = inr (Some tester))
    by reflexivity.
  rewrite <- Hm in Hsnd. clear Hm.
  apply ibind_returned in Hsnd. destruct Hsnd as (u1 & _ & Hsnd).
  apply ibind_returned in Hsnd. destruct Hsnd as (u2 & _ & Hsnd).
  apply ibind_returned in Hsnd. destruct Hsnd as (u3 & _ & Hsnd).
  unfold initializeBody in Hsnd. cbv zeta in Hsnd.
  apply ibind_returned in Hsnd. destruct Hsnd as (r1 & _ & Hsnd).
  apply ibind_returned in Hsnd. destruct Hsnd as (exempt & _ & Hsnd).
  apply ibind_returned in Hsnd. destruct Hsnd as (r2 & Hload & Hsnd).
  apply ibind_returned in Hsnd. destruct Hsnd as (interesting & Hr2 & Hsnd).
  apply ibind_returned in Hsnd. destruct Hsnd as (seen & Hseen & Hsnd).
  apply ibind_returned in Hsnd. destruct Hsnd as (u4 & _ & Hsnd).
  assert (Hinteresting : r2 = inl interesting).
  { destruct r2; simpl in Hr2; [injection Hr2 as ->; reflexivity | discriminate]. }
  subst r2. apply loadAccounts_returned in Hload.
  assert (Hstored : getAllAccountCurrency iw = inl seen).
  { destruct (getAllAccountCurrency iw); simpl in Hseen;
      [injection Hseen as ->; reflexivity | discriminate]. }
  unfold bootstrapIfProvided in Hsnd.
  destruct (0 <? String.length (BootstrapBalances (Data config0)))%nat.
  - destruct (isHeadBlockNotFound _).
    + apply ibind_returned in Hsnd. destruct Hsnd as (u5 & _ & Hsnd).
      apply ibind_returned in Hsnd. destruct Hsnd as (u6 & _ & Hsnd).
      simpl in Hsnd. injection Hsnd as <-. cbn.
      repeat split; try assumption.
      * intro He. destruct Hload as [[_ ->] | [Hne _]]; [reflexivity | contradiction].
      * intro Hne. destruct Hload as [[He _] | [_ Hl]]; [contradiction | exact Hl].
    + simpl in Hsnd. discriminate Hsnd.
  - simpl in Hsnd. injection Hsnd as <-. cbn.
    repeat split; try assumption.
    * intro He. destruct Hload as [[_ ->] | [Hne _]]; [reflexivity | contradiction].
    * intro Hne. destruct Hload as [[He _] | [_ Hl]]; [contradiction | exact Hl].
Qed.

(** X17.  When the file of exempt accounts cannot be read, [InitializeData]
    ends the process after opening the storage and before anything else,
    with the error of the read followed by what [loadAccounts] and then
    [InitializeData] were doing; an empty path is never read. *)
Theorem X17_InitializeData_exempt_accounts_unreadable (err : error) :
  ensurePathExists iw dataPath = None ->
  initBadgerStorage iw dataPath = None ->
  ExemptAccounts (Data config0) <> EmptyString ->
  loadAndParse iw (ExemptAccounts (Data config0)) = inr err ->
  run = ([IEOpen dataPath],
         InitFatal (Error err ++
                    ": unable to open account file: unable to load exempt accounts")%string).
Proof.
  intros Hpath Hstore Hne Hload.
  unfold run, InitializeData. cbv zeta. fold dataPath.
  rewrite Hpath, Hstore. unfold initializeBody. cbv zeta.
  rewrite (loadAccounts_failed types_PrettyPrintStruct iw _ err Hne Hload).
  simpl. rewrite string_append_assoc. reflexivity.
Qed.

End InitializeProperties.

Lemma X12_witness :
  exists evs tester,
    InitializeData Sample.defaults Sample.hash Sample.join Sample.pretty
      Sample.synced (Sample.conf false "") Sample.net 0%nat SampleInit.genesis
      true None =
    (IEOpen "/data/data/Bitcoin-Testnet3" :: evs ++
     [IEClose "/data/data/Bitcoin-Testnet3"], InitReturn (Some tester)) /\
    genesisBlock tester = SampleInit.genesis.
Proof.
  destruct (X12_InitializeData_without_bootstrap Sample.defaults Sample.hash
              Sample.join Sample.pretty Sample.synced (Sample.conf false "")
              Sample.net 0%nat SampleInit.genesis true None)
    as (evs & tester & Hrun & _ & _ & _ & _ & _ & Hgenesis).
  - reflexivity.
  - repeat split.
    + left. reflexivity.
    + left. reflexivity.
    + exists []. reflexivity.
  - exists evs, tester. split; [exact Hrun | exact Hgenesis].
Defined.

Lemma X13_witness :
  exists evs tester,
    InitializeData Sample.defaults Sample.hash Sample.join Sample.pretty
      Sample.fresh (Sample.conf false "bootstrap.json") Sample.net 0%nat
      SampleInit.genesis true None =
    (IEOpen "/data/data/Bitcoin-Testnet3" :: evs ++
     [IEBootstrapBalances "bootstrap.json" SampleInit.genesis;
      IEClose "/data/data/Bitcoin-Testnet3"],
     InitReturn (Some tester)).
Proof.
  destruct (X13_InitializeData_bootstraps_fresh_store Sample.defaults Sample.hash
              Sample.join Sample.pretty Sample.fresh
              (Sample.conf false "bootstrap.json")
              Sample.net 0%nat SampleInit.genesis true None)
    as (evs & _ & tester & Hrun & _).
  - simpl. lia.
  - reflexivity.
  - repeat split.
    + left. reflexivity.
    + left. reflexivity.
    + exists []. reflexivity.
  - exists evs, tester. exact Hrun.
Defined.

Lemma X14_witness :
  exists evs,
    InitializeData Sample.defaults Sample.hash Sample.join Sample.pretty
      SampleInit.unreadable (Sample.conf false "bootstrap.json") Sample.net 0%nat
      SampleInit.genesis true None =
    (IEOpen "/data/data/Bitcoin-Testnet3" :: evs ++
     [IEPrint msgSkippingBootstrap; IEClose "/data/data/Bitcoin-Testnet3"],
     InitReturn None).
Proof.
  destruct (X14_InitializeData_lookup_error_skips Sample.defaults Sample.hash
              Sample.join Sample.pretty SampleInit.unreadable
              (Sample.conf false "bootstrap.json")
              Sample.net 0%nat SampleInit.genesis true None
              (errors_New "database is corrupt"))
    as (evs & Hrun & _).
  - simpl. lia.
  - reflexivity.
  - discriminate.
  - repeat split.
    + left. reflexivity.
    + left. reflexivity.
    + exists []. reflexivity.
  - exists evs. exact Hrun.
Defined.

Lemma X16_witness :
  exists evs tester,
    InitializeData Sample.defaults Sample.hash Sample.join Sample.pretty
      Sample.synced (Sample.conf false "") Sample.net 0%nat SampleInit.genesis
      true None = (evs, InitReturn (Some tester)) /\
    activeConcurrency (reconciler tester) = 8 /\
    interestingAccounts (reconciler tester) = [].
Proof.
  eexists. eexists. split; [reflexivity |].
  refine (let H := X16_InitializeData_tester_settings Sample.defaults Sample.hash
                     Sample.join Sample.pretty Sample.synced (Sample.conf false "")
                     Sample.net 0%nat SampleInit.genesis true None _ _ eq_refl in _).
  destruct H as (_ & _ & _ & _ & _ & Hactive & _ & _ & _ & _ & Hnone & _).
  split; [exact Hactive | exact (Hnone eq_refl)].
Defined.

Lemma X17_witness :
  InitializeData Sample.defaults Sample.hash Sample.join Sample.pretty
    SampleInit.unreadable (SampleInit.confFiles "exempt.json" "" "") Sample.net
    0%nat SampleInit.genesis true None =
  ([IEOpen "/data/data/Bitcoin-Testnet3"],
   InitFatal "no such file: unable to open account file: unable to load exempt accounts").
Proof.
  apply (X17_InitializeData_exempt_accounts_unreadable Sample.defaults Sample.hash
           Sample.join Sample.pretty SampleInit.unreadable
           (SampleInit.confFiles "exempt.json" "" "") Sample.net
           0%nat SampleInit.genesis true None (errors_New "no such file")).
  - reflexivity.
  - reflexivity.
  - discriminate.
  - reflexivity.
Defined.

(** ** The periodic logger *)

Lemma logger_runs (k : nat) :
  forall (extra : nat) (ctxErr logResult : nat -> option error) (first : nat),
    (forall j, (j < k)%nat -> ctxErr (first + j)%nat = None) ->
    ctxErr (first + k)%nat <> None ->
    exists evs,
      StartPeriodicLogger (S k + extra) ctxErr logResult first =
        (Some None, evs ++ [LogCounterStorage (logResult (first + k)%nat)]) /\
      snapshots evs = k /\
      slept evs = PeriodicLoggingFrequency * Z.of_nat k /\
      slept [LogCounterStorage (logResult (first + k)%nat)] = 0.
Proof.
  induction k as [| k IH]; intros extra ctxErr logResult first Hlive Hdone.
  - rewrite Nat.add_0_r in *. exists []. cbn [Nat.add StartPeriodicLogger].
    destruct (ctxErr first); [| contradiction Hdone; reflexivity].
    repeat split.
  - pose proof (Hlive 0%nat ltac:(lia)) as Hfirst. rewrite Nat.add_0_r in Hfirst.
    destruct (IH extra ctxErr logResult (S first)) as (evs & Hrun & Hsnap & Hslept & _).
    + intros j Hj. replace (S first + j)%nat with (first + S j)%nat by lia.
      apply Hlive. lia.
    + replace (S first + k)%nat with (first + S k)%nat by lia. exact Hdone.
    + exists (LogCounterStorage (logResult first) :: Sleep PeriodicLoggingFrequency
              :: evs).
      change (S (S k) + extra)%nat with (S (S k + extra)).
      cbn [StartPeriodicLogger]. rewrite Hfirst. cbn [isNil].
      rewrite Hrun.
      replace (S first + k)%nat with (first + S k)%nat by lia.
      repeat split.
      * unfold snapshots in *. simpl. rewrite Hsnap. reflexivity.
      * cbn [slept fold_right]. fold (slept evs). rewrite Hslept.
        unfold PeriodicLoggingFrequency. lia.
Qed.

Lemma logger_returns_nil (fuel : nat) :
  forall (ctxErr logResult : nat -> option error) (first : nat)
         (r : option error),
    fst (StartPeriodicLogger fuel ctxErr logResult first) = Some r -> r = None.
Proof.
  induction fuel as [| fuel IH]; intros ctxErr logResult first r.
  - discriminate.
  - cbn [StartPeriodicLogger].
    destruct (isNil (ctxErr first)).
    + specialize (IH ctxErr logResult (S first) r).
      destruct (StartPeriodicLogger fuel ctxErr logResult (S first)).
      exact IH.
    + simpl. intro H. injection H as <-. reflexivity.
Qed.

(** X18.  If the context ends when the loop of [StartPeriodicLogger] asks
    for the [k+1]-th time, the logger has taken [k] snapshots with a sleep
    of ten seconds after each, takes one last snapshot and returns nil.  It
    never returns an error, whatever the snapshots answer. *)
Theorem X18_StartPeriodicLogger_last_snapshot
    (ctxErr logResult : nat -> option error) (k extra : nat) :
  (forall j, (j < k)%nat -> ctxErr j = None) ->
  ctxErr k <> None ->
  (exists evs,
     StartPeriodicLogger (S k + extra) ctxErr logResult 0 =
       (Some None, evs ++ [LogCounterStorage (logResult k)]) /\
     snapshots (evs ++ [LogCounterStorage (logResult k)]) = S k /\
     slept (evs ++ [LogCounterStorage (logResult k)]) =
       10 * 1000000000 * Z.of_nat k) /\
  forall fuel r,
    fst (StartPeriodicLogger fuel ctxErr logResult 0) = Some r -> r = None.
Proof.
  intros Hlive Hdone. split.
  - destruct (logger_runs k extra ctxErr logResult 0%nat) as (evs & Hrun & Hsnap & Hslept & _).
    + intros j Hj. apply Hlive. exact Hj.
    + exact Hdone.
    + exists evs. cbn [Nat.add] in Hrun. split; [exact Hrun |]. split.
      * unfold snapshots in *. rewrite filter_app, length_app, Hsnap.
        simpl. lia.
      * assert (Happ : forall l1 l2, slept (l1 ++ l2) = slept l1 + slept l2).
        { induction l1 as [| ev l1 IHl]; intro l2; simpl.
          - reflexivity.
          - fold (slept (l1 ++ l2)). fold (slept l1). rewrite IHl.
            destruct ev; lia. }
        rewrite Happ, Hslept. simpl. unfold PeriodicLoggingFrequency. lia.
  - intros fuel r. apply logger_returns_nil.
Qed.

Lemma X18_witness :
  exists evs,
    StartPeriodicLogger 5 SampleInit.cancelledAtThird
      (fun _ => Some (errors_New "counter storage closed")) 0 =
    (Some None,
     evs ++ [LogCounterStorage (Some (errors_New "counter storage closed"))]) /\
    snapshots
      (evs ++ [LogCounterStorage (Some (errors_New "counter storage closed"))])
      = 3%nat.
Proof.
  destruct (X18_StartPeriodicLogger_last_snapshot SampleInit.cancelledAtThird
              (fun _ => Some (errors_New "counter storage closed")) 2 2)
    as [(evs & Hrun & Hsnap & _) _].
  - intros j Hj. destruct j as [| [| j]]; [reflexivity | reflexivity | lia].
  - discriminate.
  - exists evs. split; [exact Hrun | exact Hsnap].
Defined.

(** ** The block a search finds *)

(** X19.  If the calls of a search complete cleanly until one ends in a
    genuine failure for which the reconciler bound a block (its storage
    set up and closed, no abort signal), the search returns that block with
    a nil error, unless the search space was exhausted before that call. *)
Theorem X19_search_returns_first_active_failure
    (defaults : ReconcilerDefaults) (t : DataTester) (w : World)
    (ac : AccountCurrency) (b : BlockIdentifier) (k : nat) :
  forall (fuel attempt : nat) (s e : Z),
    (forall j, (j < k)%nat -> cleanAttempt (w (attempt + j)%nat)) ->
    reachesSignalCheck (w (attempt + k)%nat) ->
    signalReceivedAfter (w (attempt + k)%nat) = false ->
    (exists failure,
       wait (w (attempt + k)%nat) = Some failure /\ failure <> context_Canceled) ->
    activeFailureBlockAfter (w (attempt + k)%nat) = Some b ->
    fst (recursiveOpSearch defaults t w (S k + fuel) attempt ac s e) =
      Some (Some b, None) \/
    exists newStart newEnd,
      newEnd <= newStart /\
      fst (recursiveOpSearch defaults t w (S k + fuel) attempt ac s e) =
        Some (None, Some (errExhausted newStart newEnd)).
Proof.
  induction k as [| k IH]; intros fuel attempt s e Hclean Hreach Hnosig Hfail Hb.
  - left. rewrite Nat.add_0_r in *.
    destruct Hreach as ([tmpDir Hdir] & Hopen & Hclose).
    destruct Hfail as (failure & Hwait & Hgenuine).
    cbn [Nat.add].
    rewrite (search_failed defaults t w fuel attempt ac tmpDir s e failure)
      by assumption.
    rewrite Hb. reflexivity.
  - destruct (Hclean 0%nat ltac:(lia))
      as ([tmpDir Hdir] & Hopen & Hclose & Hsig & Hwait).
    rewrite Nat.add_0_r in *.
    change (S (S k) + fuel)%nat with (S (S k + fuel)).
    rewrite (search_clean defaults t w (S k + fuel) attempt ac tmpDir s e)
      by assumption.
    destruct (Z.leb_spec (nextEnd e) (clampedStart t s)) as [Hle | Hgt].
    + right. eauto.
    + cbv zeta. cbn [fst].
      apply IH.
      * intros j Hj. replace (S attempt + j)%nat with (attempt + S j)%nat by lia.
        apply Hclean. lia.
      * replace (S attempt + k)%nat with (attempt + S k)%nat by lia. exact Hreach.
      * replace (S attempt + k)%nat with (attempt + S k)%nat by lia. exact Hnosig.
      * replace (S attempt + k)%nat with (attempt + S k)%nat by lia. exact Hfail.
      * replace (S attempt + k)%nat with (attempt + S k)%nat by lia. exact Hb.
Qed.

Lemma X19_witness :
  fst (recursiveOpSearch Sample.defaults
         (Sample.tester 0 false (Some 1000) (inl 7) (inl 3))
         (fun n => match n with
                   | 0%nat => Sample.clean
                   | _ => Sample.failing (Some {| Index := 612; Hash := "bad" |})
                   end)
         2 0 Sample.account 750 1000) =
  Some (Some {| Index := 612; Hash := "bad" |}, None).
Proof.
  destruct (X19_search_returns_first_active_failure Sample.defaults
              (Sample.tester 0 false (Some 1000) (inl 7) (inl 3))
              (fun n => match n with
                        | 0%nat => Sample.clean
                        | _ => Sample.failing (Some {| Index := 612; Hash := "bad" |})
                        end)
              Sample.account {| Index := 612; Hash := "bad" |} 1 0 0 750 1000)
    as [H | (ns & ne & _ & H)].
  - intros j Hj. destruct j as [| j]; [| lia].
    repeat split; [exists "/tmp/search"%string; reflexivity | right; reflexivity].
  - repeat split. exists "/tmp/search"%string. reflexivity.
  - reflexivity.
  - exists (errors_New "reconciliation failure"). split; [reflexivity | discriminate].
  - reflexivity.
  - exact H.
  - discriminate H.
Defined.
